(** * mistral-ocr-tool: retry policy, PDF splitting and the chunked pipeline

    A shallow embedding of [mistral.py].  The remote OCR service, the file
    system, the console and the clock are the only effects of the program;
    they are modelled by an explicit environment that is threaded through
    every function, together with a log of what the function did. *)

From Stdlib Require Import ZArith QArith Qpower Lia Ascii.
From stdpp Require Import base strings pretty list gmap.

Close Scope Q_scope.
Open Scope Z_scope.

(** ** Exceptions *)

(** The exception classes that the modelled code raises or tests for.  All
    of them derive from Python's [Exception]. *)
Inductive exc_class :=
  | MistralAPIException
  | ConnectionError
  | ConnectionResetError
  | OSError
  | FileNotFoundError
  | PermissionError
  | PdfReadError
  | ZeroDivisionError
  | IndexError
  | TypeError
  | AttributeError
  | UnicodeDecodeError
  | ValueError.

Global Instance exc_class_eq_dec : EqDecision exc_class.
Proof. solve_decision. Defined.

(** The class itself followed by its ancestors below [Exception]. *)
Definition mro (c : exc_class) : list exc_class :=
  match c with
  | ConnectionResetError => [ConnectionResetError; ConnectionError; OSError]
  | ConnectionError => [ConnectionError; OSError]
  | FileNotFoundError => [FileNotFoundError; OSError]
  | PermissionError => [PermissionError; OSError]
  | UnicodeDecodeError => [UnicodeDecodeError; ValueError]
  | c => [c]
  end.

(** An exception object: [exn_id] stands for the identity of the object. *)
Record exn := mk_exn {
  exn_class : exc_class;
  exn_id : nat;
  status_code : option Z
}.

Global Instance exn_eq_dec : EqDecision exn.
Proof. solve_decision. Defined.

(** [isinstance(e, classes)] for a tuple of classes, as an [except] clause
    evaluates it. *)
Definition isinstance (e : exn) (classes : list exc_class) : bool :=
  existsb (fun c => bool_decide (c ∈ mro (exn_class e))) classes.

(** The default of [retry_on_exceptions]. *)
Definition default_retry_on_exceptions : list exc_class :=
  [MistralAPIException; ConnectionError].

Inductive outcome (A : Type) :=
  | Ret (a : A)
  | Raise (e : exn).
Arguments Ret {A} a.
Arguments Raise {A} e.

(** ** Files, console messages and the log *)

Definition page := string.

Inductive file :=
  | PdfFile (pages : list page)
  | TextFile (text : string).

(** What [json.loads(response.model_dump_json())] holds under the key
    ["usage_info"]: a dictionary, or some other JSON value. *)
Inductive usage_value :=
  | UsageDict (pages_processed doc_size_bytes : option Z)
  | UsageOther.

(** The response of [client.ocr.process], as far as the program looks at
    it: the markdown of its pages, and what
    [json.loads(response.model_dump_json())] evaluates to, an exception or
    the dictionary, of which only the entry ["usage_info"] is read. *)
Record OCRResponse := mk_response {
  resp_pages : list string;
  resp_dump : outcome (option usage_value)
}.

Inductive document :=
  | DocumentURLChunk (document_url : string)
  | ImageURLChunk (image_url : string).

(** The messages that the modelled functions print.  The hints, which
    differ only in their wording, share [MsgHint], and the messages on an
    API status share [MsgApiStatus]. *)
Inductive msg :=
  | MsgRetry (retry max_retries : Z)
  | MsgError502
  | MsgErrorRetrying (e : exn)
  | MsgWaiting (delay : Q)
  | MsgMaxRetries (max_retries : Z)
  | MsgUploading (name : string)
  | MsgApiStatus (code : Z)
  | MsgProcessingDocument
  | MsgProcessingImage
  | MsgNoSuchFile (path : string)
  | MsgUploadFailed (e : exn)
  | MsgProcessingFile (name : string)
  | MsgOcrFailed (e : exn)
  | MsgHint
  | MsgSaved (path : string)
  | MsgPagesProcessed (n : option Z)
  | MsgDocSize (n : option Z)
  | MsgUnexpected (e : exn)
  | MsgSplitting (path : string) (actual_chunks pages_per_chunk : Z)
  | MsgSplitDone (n : nat) (dir : string)
  | MsgSplitFailed (e : exn)
  | MsgChunk (ordinal : Z) (total : nat) (name : string)
  | MsgChunkRetry (ordinal retry max_chunk_retries : Z) (e : option exn)
  | MsgChunkSkipped (ordinal : Z) (e : option exn)
  | MsgCombining (n : nat) (path : string)
  | MsgCombined (path : string)
  | MsgFailedChunks (n : nat) (failed_chunks : list Z)
  | MsgMayBeIncomplete
  | MsgAllChunksFailed
  | MsgPartLost.

Inductive label :=
  | Call (name : string)
  | Attempt (ordinal : Z) (retry : Z).

Global Instance label_eq_dec : EqDecision label.
Proof. solve_decision. Defined.

#[local] Set Warnings "-register-all".

(** The log of a run.  [Scope l inner raised] is one complete execution of
    the call named by [l]: [inner] is what happened inside it and [raised]
    the exception it ended with, if any.  [Wrote] is logged when a file has
    been written and closed. *)
Inductive event :=
  | Printed (m : msg)
  | Sleep (seconds : Q)
  | Wrote (path : string) (f : file)
  | Scope (l : label) (inner : list event) (raised : option exn).

(** ** The environment and the monad *)

Section Program.

(** The state of the remote service is left abstract. *)
Variable R : Type.

Record env := mk_env {
  remote : R;
  fs : gmap string file;
  denied : gset string
}.

Definition M (A : Type) : Type := env -> outcome A * env * list event.

Definition ret {A} (a : A) : M A := fun s => (Ret a, s, []).

Definition raise {A} (e : exn) : M A := fun s => (Raise e, s, []).

Definition bind {A B} (m : M A) (k : A -> M B) : M B :=
  fun s =>
    match m s with
    | (Ret a, s1, l1) =>
        match k a s1 with
        | (r, s2, l2) => (r, s2, l1 ++ l2)
        end
    | (Raise e, s1, l1) => (Raise e, s1, l1)
    end.

(** [try: m  except Exception as e: h e] *)
Definition try_except {A} (m : M A) (h : exn -> M A) : M A :=
  fun s =>
    match m s with
    | (Ret a, s1, l1) => (Ret a, s1, l1)
    | (Raise e, s1, l1) =>
        match h e s1 with
        | (r, s2, l2) => (r, s2, l1 ++ l2)
        end
    end.

Definition emit (ev : event) : M unit := fun s => (Ret tt, s, [ev]).

Definition print (m : msg) : M unit := emit (Printed m).

Definition time_sleep (seconds : Q) : M unit := emit (Sleep seconds).

(** Run [m] as one call labelled [l]. *)
Definition scope {A} (l : label) (m : M A) : M A :=
  fun s =>
    match m s with
    | (Ret a, s1, l1) => (Ret a, s1, [Scope l l1 None])
    | (Raise e, s1, l1) => (Raise e, s1, [Scope l l1 (Some e)])
    end.

(** Run [m] and hand its outcome to the caller as a value, for a [try]
    whose handler returns from the enclosing function. *)
Definition attempt {A} (m : M A) : M (outcome A) :=
  fun s => match m s with (r, s1, l1) => (Ret r, s1, l1) end.

(** [try: m  except classes as e: h e]: other exceptions pass through. *)
Definition try_except_on {A} (classes : list exc_class)
    (m : M A) (h : exn -> M A) : M A :=
  try_except m (fun e => if isinstance e classes then h e else raise e).

Definition when (b : bool) (m : M unit) : M unit :=
  if b then m else ret tt.

Notation "x <~ c1 ;; c2" := (bind c1 (fun x => c2))
  (at level 100, c1 at next level, c2 at level 200, right associativity).
Notation "c1 ;;; c2" := (bind c1 (fun _ => c2))
  (at level 100, c2 at level 200, right associativity).

(** ** [retry_on_error] *)

(** [range(n)] *)
Definition py_range (n : Z) : list Z :=
  map Z.of_nat (seq 0 (Z.to_nat n)).

(** [raise last_exception]; raising [None] is a [TypeError]. *)
Definition raise_last {A} (last_exception : option exn) : M A :=
  match last_exception with
  | Some e => raise e
  | None => raise (mk_exn TypeError 0 None)
  end.

Section Retry.

Context {T : Type}.
Variables (max_retries : Z) (backoff_factor : Q).
Variable retry_on_exceptions : list exc_class.
(** [name] is [func.__name__]; [func] is the decorated function applied to
    the arguments of the call. *)
Variables (name : string) (func : M T).

(** The [for retry in range(max_retries + 1)] loop of [wrapper], on the
    retries still to run, with the current values of [delay] and
    [last_exception]. *)
Fixpoint wrapper_loop (retries : list Z) (delay : Q)
    (last_exception : option exn) : M T :=
  match retries with
  | [] => raise_last last_exception
  | retry :: rest =>
      try_except_on retry_on_exceptions
        (when (0 <? retry) (print (MsgRetry retry max_retries)) ;;;
         scope (Call name) func)
        (fun e =>
           print (if bool_decide (status_code e = Some 502)
                  then MsgError502 else MsgErrorRetrying e) ;;;
           if retry <? max_retries then
             print (MsgWaiting delay) ;;;
             time_sleep delay ;;;
             wrapper_loop rest (delay * backoff_factor)%Q (Some e)
           else
             print (MsgMaxRetries max_retries) ;;;
             raise e)
  end.

End Retry.

Definition retry_on_error {T} (max_retries : Z)
    (initial_delay backoff_factor : Q)
    (retry_on_exceptions : list exc_class)
    (name : string) (func : M T) : M T :=
  wrapper_loop max_retries backoff_factor retry_on_exceptions name func
    (py_range (max_retries + 1)) initial_delay None.

(** ** The file system *)

(** Directories are not modelled: [os.makedirs] has no effect here, and a
    path exists when it names a file. *)
Definition os_path_exists (path : string) : M bool :=
  fun s => (Ret (bool_decide (is_Some (fs s !! path))), s, []).

(** [Path.read_bytes] and [open(path, "rb").read()] *)
Definition read_bytes (path : string) : M file :=
  fun s =>
    match fs s !! path with
    | Some f => (Ret f, s, [])
    | None => (Raise (mk_exn FileNotFoundError 0 None), s, [])
    end.

(** [open(path, "r", encoding="utf-8").read()] *)
Definition read_text (path : string) : M string :=
  f <~ read_bytes path ;;
  match f with
  | TextFile text => ret text
  | PdfFile _ => raise (mk_exn UnicodeDecodeError 0 None)
  end.

(** [open(path, "w")]: creates or truncates the file; refused on the paths
    in [denied]. *)
Definition open_w (path : string) (empty : file) : M unit :=
  fun s =>
    if bool_decide (path ∈ denied s)
    then (Raise (mk_exn PermissionError 0 None), s, [])
    else (Ret tt, mk_env (remote s) (<[path := empty]> (fs s)) (denied s), []).

(** [f.write(text)] on a text file opened by [open_w]. *)
Definition append_text (path : string) (text : string) : M unit :=
  fun s =>
    match fs s !! path with
    | Some (TextFile old) =>
        (Ret tt,
         mk_env (remote s) (<[path := TextFile (old ++ text)]> (fs s))
           (denied s), [])
    | _ => (Raise (mk_exn ValueError 0 None), s, [])
    end.

(** Leaving the [with open(...)] block: the file is closed. *)
Definition close_file (path : string) : M unit :=
  fun s =>
    match fs s !! path with
    | Some f => (Ret tt, s, [Wrote path f])
    | None => (Ret tt, s, [])
    end.

(** [with open(path, "w", encoding="utf-8") as f: f.write(text)] *)
Definition write_text (path : string) (text : string) : M unit :=
  open_w path (TextFile "") ;;;
  append_text path text ;;;
  close_file path.

(** [with open(path, "wb") as f: pdf_writer.write(f)] *)
Definition write_pdf (path : string) (pages : list page) : M unit :=
  open_w path (PdfFile []) ;;;
  (fun s =>
     (Ret tt, mk_env (remote s) (<[path := PdfFile pages]> (fs s)) (denied s),
      [])) ;;;
  close_file path.

(** ** The library functions the program calls *)

(** [os.path], [pathlib] and [base64] are not part of the program: the
    model takes them as given. *)
Record os_api := mk_os {
  os_path_dirname : string -> string;
  os_path_basename : string -> string;
  os_path_splitext : string -> string * string;
  os_path_join : string -> string -> string;
  path_name : string -> string;
  path_stem : string -> string;
  format_03d : Z -> string;
  data_url : file -> string
}.

(** The Mistral client: each call acts on the state of the service. *)
Record client_api := mk_client {
  files_upload : string -> file -> R -> outcome string * R;
  files_get_signed_url : string -> R -> outcome string * R;
  ocr_process : document -> string -> option bool -> R ->
                outcome OCRResponse * R
}.

Variable os : os_api.
Variable client : client_api.

Definition remote_call {A} (op : R -> outcome A * R) : M A :=
  fun s =>
    match op (remote s) with
    | (r, rs) => (r, mk_env rs (fs s) (denied s), [])
    end.

Definition of_outcome {A} (r : outcome A) : M A :=
  match r with
  | Ret a => ret a
  | Raise e => raise e
  end.

(** ** Conversion of one document *)

(** The separator ["\n\n"]: an empty line between two texts. *)
Definition blank_line : string :=
  String "010"%char (String "010"%char EmptyString).

(** [sep.join(parts)] *)
Fixpoint str_join (sep : string) (parts : list string) : string :=
  match parts with
  | [] => ""
  | p :: rest =>
      match rest with
      | [] => p
      | _ :: _ => p ++ sep ++ str_join sep rest
      end
  end.

Definition get_combined_markdown (ocr_response : OCRResponse) : string :=
  str_join blank_line (resp_pages ocr_response).

(** The body of [upload_file_to_ocr_service], before decoration. *)
Definition upload_file_to_ocr_service_body (file_path : string)
    : M string :=
  print (MsgUploading (path_name os file_path)) ;;;
  try_except_on [MistralAPIException]
    (content <~ read_bytes file_path ;;
     uploaded_id <~ remote_call
       (files_upload client (path_stem os file_path) content) ;;
     remote_call (files_get_signed_url client uploaded_id))
    (fun e =>
       match status_code e with
       | Some code => print (MsgApiStatus code)
       | None => ret tt
       end ;;;
       raise e).

Definition upload_file_to_ocr_service (file_path : string) : M string :=
  retry_on_error 3 2 2 default_retry_on_exceptions
    "upload_file_to_ocr_service"
    (upload_file_to_ocr_service_body file_path).

Definition process_with_ocr (document_url model : string)
    : M OCRResponse :=
  retry_on_error 3 2 2 default_retry_on_exceptions "process_with_ocr"
    (print MsgProcessingDocument ;;;
     remote_call
       (ocr_process client (DocumentURLChunk document_url) model
          (Some false))).

Definition process_image_with_ocr (image_url model : string)
    : M OCRResponse :=
  retry_on_error 3 2 2 default_retry_on_exceptions "process_image_with_ocr"
    (print MsgProcessingImage ;;;
     remote_call
       (ocr_process client (ImageURLChunk image_url) model None)).

(** [not output_path]: [None] and the empty string are false. *)
Definition falsy (path : option string) : bool :=
  match path with
  | None => true
  | Some p => bool_decide (p = "")
  end.

(** [if not output_path: output_path = os.path.splitext(src)[0] + ".md"] *)
Definition default_md (src : string) (output_path : option string)
    : string :=
  match output_path with
  | Some p => if bool_decide (p = "") then (os_path_splitext os src).1 ++ ".md"
              else p
  | None => (os_path_splitext os src).1 ++ ".md"
  end.

(** The usage report messages after the output file has been saved;
    [with_size] tells whether the document size is messages too. *)
Definition report_usage (response : OCRResponse) (with_size : bool)
    : M unit :=
  response_dict <~ of_outcome (resp_dump response) ;;
  match response_dict with
  | Some (UsageDict pages_processed doc_size_bytes) =>
      print (MsgPagesProcessed pages_processed) ;;;
      when with_size (print (MsgDocSize doc_size_bytes))
  | Some UsageOther => raise (mk_exn AttributeError 0 None)
  | None => ret tt
  end.

(** The client is built from [api_key] inside the function; here it is the
    [client] of the section. *)
Definition convert_pdf_to_markdown (pdf_path : string)
    (output_path : option string) (model : string) : M (option string) :=
  found <~ os_path_exists pdf_path ;;
  if negb found then
    print (MsgNoSuchFile pdf_path) ;;; ret None
  else
    try_except
      (uploaded <~ attempt (upload_file_to_ocr_service pdf_path) ;;
       match uploaded with
       | Raise e =>
           print (MsgUploadFailed e) ;;; print MsgHint ;;; ret None
       | Ret signed_url =>
           processed <~ attempt
             (print (MsgProcessingFile (path_name os pdf_path)) ;;;
              process_with_ocr signed_url model) ;;
           match processed with
           | Raise e =>
               print (MsgOcrFailed e) ;;; print MsgHint ;;; ret None
           | Ret pdf_response =>
               let markdown_content := get_combined_markdown pdf_response in
               let output_path := default_md pdf_path output_path in
               write_text output_path markdown_content ;;;
               print (MsgSaved output_path) ;;;
               report_usage pdf_response true ;;;
               ret (Some output_path)
           end
       end)
      (fun e => print (MsgUnexpected e) ;;; print MsgHint ;;; ret None).

Definition convert_image_to_markdown (image_path : string)
    (output_path : option string) (model : string) : M (option string) :=
  found <~ os_path_exists image_path ;;
  if negb found then
    print (MsgNoSuchFile image_path) ;;; ret None
  else
    try_except
      (print (MsgProcessingFile (path_name os image_path)) ;;;
       content <~ read_bytes image_path ;;
       let base64_data_url := data_url os content in
       processed <~ attempt
         (process_image_with_ocr base64_data_url model) ;;
       match processed with
       | Raise e =>
           print (MsgOcrFailed e) ;;; print MsgHint ;;; ret None
       | Ret image_response =>
           let markdown_content := get_combined_markdown image_response in
           let output_path := default_md image_path output_path in
           write_text output_path markdown_content ;;;
           print (MsgSaved output_path) ;;;
           report_usage image_response false ;;;
           ret (Some output_path)
       end)
      (fun e => print (MsgUnexpected e) ;;; print MsgHint ;;; ret None).

(** ** [split_pdf] *)

(** [PdfReader(pdf_path).pages] *)
Definition pdf_reader (pdf_path : string) : M (list page) :=
  f <~ read_bytes pdf_path ;;
  match f with
  | PdfFile pages => ret pages
  | TextFile _ => raise (mk_exn PdfReadError 0 None)
  end.

(** [math.ceil(a / b)] on integers.  The quotient is taken exactly; the
    float division of the source agrees with it on page counts below
    2^26, and after [max(1, _)] also when [b] exceeds that. *)
Definition ceil_div (a b : Z) : M Z :=
  if bool_decide (b = 0) then raise (mk_exn ZeroDivisionError 0 None)
  else ret (- ((- a) / b)).

(** [range(start, stop)] *)
Definition py_range2 (start stop : Z) : list Z :=
  map (fun k => start + Z.of_nat k) (seq 0 (Z.to_nat (stop - start))).

(** [pages[k]]: a negative index counts from the end. *)
Definition py_index (pages : list page) (k : Z) : M page :=
  let n := Z.of_nat (length pages) in
  let j := if k <? 0 then k + n else k in
  match (if j <? 0 then None else pages !! Z.to_nat j) with
  | Some p => ret p
  | None => raise (mk_exn IndexError 0 None)
  end.

(** [for page_num in range(...): pdf_writer.add_page(pdf.pages[page_num])] *)
Fixpoint add_pages (pages : list page) (page_nums : list Z)
    (pdf_writer : list page) : M (list page) :=
  match page_nums with
  | [] => ret pdf_writer
  | page_num :: rest =>
      p <~ py_index pages page_num ;;
      add_pages pages rest (pdf_writer ++ [p])
  end.

Definition chunk_file (output_dir base_filename : string) (i : Z)
    : string :=
  os_path_join os output_dir
    (base_filename ++ "_chunk_" ++ format_03d os (i + 1) ++ ".pdf").

(** The [for i in range(actual_chunks)] loop. *)
Fixpoint split_loop (pages : list page) (output_dir base_filename : string)
    (pages_per_chunk total_pages : Z) (indices : list Z)
    (chunk_paths : list string) : M (list string) :=
  match indices with
  | [] => ret chunk_paths
  | i :: rest =>
      let start_page := i * pages_per_chunk in
      let end_page := Z.min ((i + 1) * pages_per_chunk) total_pages in
      pdf_writer <~ add_pages pages (py_range2 start_page end_page) [] ;;
      let output_path := chunk_file output_dir base_filename i in
      write_pdf output_path pdf_writer ;;;
      split_loop pages output_dir base_filename pages_per_chunk total_pages
        rest (chunk_paths ++ [output_path])
  end.

Definition split_pdf (pdf_path : string) (output_dir : option string)
    (num_chunks : Z) : M (list string) :=
  let output_dir :=
    match output_dir with
    | Some d => if bool_decide (d = "")
                then os_path_join os (os_path_dirname os pdf_path) "split_pdfs"
                else d
    | None => os_path_join os (os_path_dirname os pdf_path) "split_pdfs"
    end in
  let base_filename :=
    (os_path_splitext os (os_path_basename os pdf_path)).1 in
  pages <~ pdf_reader pdf_path ;;
  let total_pages := Z.of_nat (length pages) in
  q <~ ceil_div total_pages num_chunks ;;
  let pages_per_chunk := Z.max 1 q in
  actual_chunks <~ ceil_div total_pages pages_per_chunk ;;
  print (MsgSplitting pdf_path actual_chunks pages_per_chunk) ;;;
  chunk_paths <~ split_loop pages output_dir base_filename pages_per_chunk
    total_pages (py_range actual_chunks) [] ;;
  print (MsgSplitDone (length chunk_paths) output_dir) ;;;
  ret chunk_paths.

(** ** [process_pdf_in_chunks] *)

Inductive pipeline_result :=
  | NoOutput
  | MergedFile (output_path : string)
  | ChunkFiles (chunk_outputs : list string).

Definition max_chunk_retries : Z := 2.

Section Chunked.

(** The converter applied to each chunk: [convert_pdf_to_markdown] in the
    program. *)
Variable convert : string -> option string -> string -> M (option string).

(** After a failed attempt: sleep and go on, or give the chunk up. *)
Definition after_failure (i retry : Z) (e : option exn)
    (failed_chunks : list Z) : M (list Z) :=
  if retry <? max_chunk_retries then
    print (MsgChunkRetry (i + 1) (retry + 1) max_chunk_retries e) ;;;
    time_sleep (inject_Z (2 * (retry + 1))) ;;;
    ret failed_chunks
  else
    print (MsgChunkSkipped (i + 1) e) ;;;
    ret (failed_chunks ++ [i + 1]).

(** The [for retry in range(max_chunk_retries + 1)] loop on one chunk. *)
Fixpoint chunk_retry_loop (i : Z) (chunk_path : string)
    (chunk_output_path : option string) (model : string)
    (retries : list Z) (chunk_outputs : list string)
    (failed_chunks : list Z) : M (list string * list Z) :=
  match retries with
  | [] => ret (chunk_outputs, failed_chunks)
  | retry :: rest =>
      r <~ attempt (scope (Attempt (i + 1) retry)
                      (convert chunk_path chunk_output_path model)) ;;
      match r with
      | Ret result_path =>
          if falsy result_path then
            failed_chunks <~ after_failure i retry None failed_chunks ;;
            chunk_retry_loop i chunk_path chunk_output_path model rest
              chunk_outputs failed_chunks
          else
            ret (chunk_outputs ++ [default "" result_path], failed_chunks)
      | Raise e =>
          failed_chunks <~ after_failure i retry (Some e) failed_chunks ;;
          chunk_retry_loop i chunk_path chunk_output_path model rest
            chunk_outputs failed_chunks
      end
  end.

(** The [for i, chunk_path in enumerate(chunk_paths)] loop, from index
    [i] on; [total] is [len(chunk_paths)]. *)
Fixpoint chunk_loop (output_path : option string) (model : string)
    (total : nat) (i : Z) (chunk_paths : list string)
    (chunk_outputs : list string) (failed_chunks : list Z)
    : M (list string * list Z) :=
  match chunk_paths with
  | [] => ret (chunk_outputs, failed_chunks)
  | chunk_path :: rest =>
      print (MsgChunk (i + 1) total (os_path_basename os chunk_path)) ;;;
      let chunk_output_path :=
        match output_path with
        | Some p =>
            if bool_decide (p = "") then None
            else Some (os_path_join os
                   (os_path_join os (os_path_dirname os p) "chunk_outputs")
                   ((os_path_splitext os
                       (os_path_basename os chunk_path)).1 ++ ".md"))
        | None => None
        end in
      st <~ chunk_retry_loop i chunk_path chunk_output_path model
        (py_range (max_chunk_retries + 1)) chunk_outputs failed_chunks ;;
      chunk_loop output_path model total (i + 1) rest st.1 st.2
  end.

(** [for chunk_output in chunk_outputs: combined_file.write(...)] *)
Fixpoint combine_loop (output_path : string) (chunk_outputs : list string)
    : M unit :=
  match chunk_outputs with
  | [] => ret tt
  | chunk_output :: rest =>
      content <~ read_text chunk_output ;;
      append_text output_path content ;;;
      append_text output_path blank_line ;;;
      combine_loop output_path rest
  end.

Definition combine (output_path : string) (chunk_outputs : list string)
    : M unit :=
  open_w output_path (TextFile "") ;;;
  combine_loop output_path chunk_outputs ;;;
  close_file output_path.

(** What follows the loop over the chunks. *)
Definition finish (output_path : option string)
    (chunk_outputs : list string) (failed_chunks : list Z)
    : M pipeline_result :=
  if negb (falsy output_path) && negb (bool_decide (chunk_outputs = []))
  then
    let output_path := default "" output_path in
    print (MsgCombining (length chunk_outputs) output_path) ;;;
    combine output_path chunk_outputs ;;;
    print (MsgCombined output_path) ;;;
    when (negb (bool_decide (failed_chunks = [])))
      (print (MsgFailedChunks (length failed_chunks) failed_chunks) ;;;
       print MsgMayBeIncomplete) ;;;
    ret (MergedFile output_path)
  else if bool_decide (chunk_outputs = []) then
    print MsgAllChunksFailed ;;; ret NoOutput
  else
    when (negb (bool_decide (failed_chunks = [])))
      (print (MsgFailedChunks (length failed_chunks) failed_chunks) ;;;
       print MsgPartLost) ;;;
    ret (ChunkFiles chunk_outputs).

Definition process_pdf_in_chunks_with (pdf_path : string)
    (output_path : option string) (num_chunks : Z) (model : string)
    : M pipeline_result :=
  split <~ attempt (split_pdf pdf_path None num_chunks) ;;
  match split with
  | Raise e => print (MsgSplitFailed e) ;;; print MsgHint ;;; ret NoOutput
  | Ret chunk_paths =>
      st <~ chunk_loop output_path model (length chunk_paths) 0 chunk_paths
        [] [] ;;
      finish output_path st.1 st.2
  end.

End Chunked.

Definition process_pdf_in_chunks :
    string -> option string -> Z -> string -> M pipeline_result :=
  process_pdf_in_chunks_with convert_pdf_to_markdown.

End Program.

Arguments mk_env {R} remote fs denied.
Arguments remote {R} e.
Arguments fs {R} e.
Arguments denied {R} e.
Arguments mk_client {R} files_upload files_get_signed_url ocr_process.
Arguments files_upload {R} c file_name content rs.
Arguments files_get_signed_url {R} c file_id rs.
Arguments ocr_process {R} c document model include_image_base64 rs.
Arguments ret {R A} a s.
Arguments raise {R A} e s.
Arguments bind {R A B} m k s.
Arguments try_except {R A} m h s.
Arguments try_except_on {R A} classes m h s.
Arguments attempt {R A} m s.
Arguments scope {R A} l m s.
Arguments emit {R} ev s.
Arguments print {R} m s.
Arguments time_sleep {R} seconds s.
Arguments when {R} b m s.
Arguments raise_last {R A} last_exception s.
Arguments wrapper_loop {R T} max_retries backoff_factor retry_on_exceptions
  name func retries delay last_exception s.
Arguments retry_on_error {R T} max_retries initial_delay backoff_factor
  retry_on_exceptions name func s.
Arguments os_path_exists {R} path s.
Arguments read_bytes {R} path s.
Arguments read_text {R} path s.
Arguments open_w {R} path empty s.
Arguments append_text {R} path text s.
Arguments close_file {R} path s.
Arguments write_text {R} path text s.
Arguments write_pdf {R} path pages s.
Arguments remote_call {R A} op s.
Arguments of_outcome {R A} r s.
Arguments upload_file_to_ocr_service_body {R} os client file_path s.
Arguments upload_file_to_ocr_service {R} os client file_path s.
Arguments process_with_ocr {R} client document_url model s.
Arguments process_image_with_ocr {R} client image_url model s.
Arguments report_usage {R} response with_size s.
Arguments convert_pdf_to_markdown {R} os client pdf_path output_path model s.
Arguments convert_image_to_markdown {R} os client image_path output_path
  model s.
Arguments pdf_reader {R} pdf_path s.
Arguments ceil_div {R} a b s.
Arguments py_index {R} pages k s.
Arguments add_pages {R} pages page_nums pdf_writer s.
Arguments split_loop {R} os pages output_dir base_filename pages_per_chunk
  total_pages indices chunk_paths s.
Arguments split_pdf {R} os pdf_path output_dir num_chunks s.
Arguments after_failure {R} i retry e failed_chunks s.
Arguments chunk_retry_loop {R} convert i chunk_path chunk_output_path model
  retries chunk_outputs failed_chunks s.
Arguments chunk_loop {R} os convert output_path model total i chunk_paths
  chunk_outputs failed_chunks s.
Arguments combine_loop {R} output_path chunk_outputs s.
Arguments combine {R} output_path chunk_outputs s.
Arguments finish {R} output_path chunk_outputs failed_chunks s.
Arguments process_pdf_in_chunks_with {R} os convert pdf_path output_path
  num_chunks model s.
Arguments process_pdf_in_chunks {R} os client pdf_path output_path
  num_chunks model s.

(** ** Log projections used by the statements *)

(** The sleeps a function performed itself, in order (not those of the
    calls it made). *)
Fixpoint sleeps (log : list event) : list Q :=
  match log with
  | [] => []
  | Sleep d :: rest => d :: sleeps rest
  | _ :: rest => sleeps rest
  end.

(** The outcomes of the calls labelled [l], in order. *)
Fixpoint invocations (l : label) (log : list event) : list (option exn) :=
  match log with
  | [] => []
  | Scope l' _ raised :: rest =>
      if decide (l' = l) then raised :: invocations l rest
      else invocations l rest
  | _ :: rest => invocations l rest
  end.

Inductive step :=
  | Called (l : label)
  | Slept (seconds : Q).

(** The calls and sleeps of a log, in order, without the messages. *)
Fixpoint timeline (log : list event) : list step :=
  match log with
  | [] => []
  | Scope l _ _ :: rest => Called l :: timeline rest
  | Sleep d :: rest => Slept d :: timeline rest
  | _ :: rest => timeline rest
  end.

(** The files written and closed by an event, also inside calls. *)
Fixpoint written_by (ev : event) : list (string * file) :=
  match ev with
  | Wrote path f => [(path, f)]
  | Scope _ inner _ => flat_map written_by inner
  | _ => []
  end.

(** The files written and closed during a run, in order. *)
Definition written (log : list event) : list (string * file) :=
  flat_map written_by log.

(** The messages a function messages itself. *)
Fixpoint messages (log : list event) : list msg :=
  match log with
  | [] => []
  | Printed m :: rest => m :: messages rest
  | _ :: rest => messages rest
  end.

(** [d; d*f; (d*f)*f; ...], [n] terms. *)
Fixpoint backoff_delays (d f : Q) (n : nat) : list Q :=
  match n with
  | O => []
  | S n' => d :: backoff_delays (d * f)%Q f n'
  end.



(** A computation that leaves the files alone: it changes neither the file
    system nor the write permissions, and it writes no file. *)
Definition quiet {R A} (m : M R A) : Prop :=
  forall s r s' l, m s = (r, s', l) ->
    fs s' = fs s /\ denied s' = denied s /\ written l = [].

(** The exception that the usage report of a response ends with, if any:
    [model_dump_json] or [json.loads] fails, or ["usage_info"] is there but
    is not a dictionary. *)
Definition usage_failure (resp : OCRResponse) : option exn :=
  match resp_dump resp with
  | Raise e => Some e
  | Ret (Some UsageOther) => Some (mk_exn AttributeError 0 None)
  | Ret _ => None
  end.


(** The folder and the base name [split_pdf] derives from its arguments. *)
Definition split_dir (os : os_api) (pdf_path : string)
    (output_dir : option string) : string :=
  if falsy output_dir
  then os_path_join os (os_path_dirname os pdf_path) "split_pdfs"
  else default "" output_dir.

Definition split_base (os : os_api) (pdf_path : string) : string :=
  (os_path_splitext os (os_path_basename os pdf_path)).1.

(** The chunks of [pages], [p] pages each, as [split_pdf] cuts them. *)
Definition chunks_of (pages : list page) (p k : nat) : list (list page) :=
  map (fun i => take p (drop (i * p) pages)) (seq 0 k).


(** How the loop of [process_pdf_in_chunks] ended on one chunk. *)
Inductive chunk_run :=
  | Succeeded (attempts : nat) (result_path : string)
  | GaveUp.

Definition attempts_of (c : chunk_run) : nat :=
  match c with
  | Succeeded attempts _ => attempts
  | GaveUp => 3
  end.

(** The attempts on the chunk [ordinal] and the sleeps between them. *)
Definition chunk_schedule (ordinal : Z) (attempts : nat) : list step :=
  Called (Attempt ordinal 0)
    :: flat_map
         (fun retry => [Slept (inject_Z (2 * retry));
                        Called (Attempt ordinal retry)])
         (map Z.of_nat (seq 1 (attempts - 1))).

(** The schedule, the outputs and the failed ordinals of the chunks that
    follow the first [i] chunks. *)
Fixpoint schedule_of (i : Z) (runs : list chunk_run) : list step :=
  match runs with
  | [] => []
  | c :: rest => chunk_schedule (i + 1) (attempts_of c) ++ schedule_of (i + 1) rest
  end.

Fixpoint outputs_of (runs : list chunk_run) : list string :=
  match runs with
  | [] => []
  | Succeeded _ p :: rest => p :: outputs_of rest
  | GaveUp :: rest => outputs_of rest
  end.

Fixpoint failed_of (i : Z) (runs : list chunk_run) : list Z :=
  match runs with
  | [] => []
  | Succeeded _ _ :: rest => failed_of (i + 1) rest
  | GaveUp :: rest => (i + 1) :: failed_of (i + 1) rest
  end.


(** ** Test doubles *)

Module Stub.

(** The service state counts the calls made to it. *)
Definition os : os_api :=
  mk_os (fun _ => "dir") (fun p => p) (fun p => (p, ""))
    (fun a b => (a ++ "/" ++ b)%string) (fun p => p) (fun p => p)
    (fun z => pretty z) (fun _ => "data:").

Definition usage : option usage_value := Some (UsageDict (Some 1) None).

Definition tick {A} (r : nat -> outcome A) : nat -> outcome A * nat :=
  fun n => (r n, S n).

(** Every call succeeds. *)
Definition good : client_api nat :=
  mk_client
    (fun _ _ => tick (fun _ => Ret "id"))
    (fun _ => tick (fun _ => Ret "url"))
    (fun _ _ _ => tick (fun _ => Ret (mk_response ["p1"; "p2"] (Ret usage)))).

(** The upload is refused with an error that is not retried. *)
Definition refused : client_api nat :=
  mk_client
    (fun _ _ => tick (fun n => Raise (mk_exn ValueError n None)))
    (fun _ => tick (fun _ => Ret "url"))
    (fun _ _ _ => tick (fun _ => Ret (mk_response ["p1"] (Ret usage)))).


(** The upload works, the OCR call is refused. *)
Definition unreadable : client_api nat :=
  mk_client
    (fun _ _ => tick (fun _ => Ret "id"))
    (fun _ => tick (fun _ => Ret "url"))
    (fun _ _ _ => tick (fun n => Raise (mk_exn ValueError n None))).

Definition disk (files : list (string * file)) : env nat :=
  mk_env 0%nat (list_to_map files) ∅.

Definition one_page : env nat := disk [("a.pdf", PdfFile ["x"])].

Definition five_pages : env nat :=
  disk [("a.pdf", PdfFile ["1"; "2"; "3"; "4"; "5"])].

Definition no_page : env nat := disk [("a.pdf", PdfFile [])].

Definition not_a_pdf : env nat := disk [("a.pdf", TextFile "text")].


(** An operation that always fails with a new [ConnectionError]. *)
Definition flaky : M nat string :=
  fun s => (Raise (mk_exn ConnectionError (remote s) None),
            mk_env (S (remote s)) (fs s) (denied s), []).


End Stub.

(** A client whose upload call is refused with a retried error, whatever
    the state of the service. *)
Definition upload_always_fails {R} (client : client_api R) : Prop :=
  forall (file_name : string) (content : file) (rs : R),
  exists e rs',
    files_upload client file_name content rs = (Raise e, rs') /\
    isinstance e default_retry_on_exceptions = true.

(** A converter that fails on every document: it raises, or it returns
    [None] (or the empty path). *)
Definition never_converts {R}
    (convert : string -> option string -> string -> M R (option string))
    : Prop :=
  forall path output_path model (s : env R),
    match (convert path output_path model s).1.1 with
    | Ret r => falsy r = true
    | Raise _ => True
    end.

(** A converter that succeeds on every document. *)
Definition always_converts {R}
    (convert : string -> option string -> string -> M R (option string))
    : Prop :=
  forall path output_path model (s : env R),
  exists q s' l,
    convert path output_path model s = (Ret (Some q), s', l) /\ q <> "".

(** The exceptions that the calls made by a function ended with, in
    order ([None] for a call that returned). *)
Fixpoint call_outcomes (log : list event) : list (option exn) :=
  match log with
  | [] => []
  | Scope _ _ raised :: rest => raised :: call_outcomes rest
  | _ :: rest => call_outcomes rest
  end.

(** Integers in strictly ascending order, all above [lo]. *)
Fixpoint ascending_from (lo : Z) (l : list Z) : Prop :=
  match l with
  | [] => True
  | x :: rest => lo < x /\ ascending_from x rest
  end.

(** Every path of the list holds a text file. *)
Definition text_files {R} (s : env R) (paths : list string) : Prop :=
  Forall (fun p => exists c, fs s !! p = Some (TextFile c)) paths.

(** The result of the pipeline, read against the disk it leaves. *)
Definition result_on_disk {R} (output_path : option string) (s' : env R)
    (r : pipeline_result) : Prop :=
  match r with
  | NoOutput => True
  | MergedFile p =>
      output_path = Some p /\ exists c, fs s' !! p = Some (TextFile c)
  | ChunkFiles outs =>
      falsy output_path = true /\ outs <> [] /\ text_files s' outs
  end.


(** ** More test doubles *)

Module Stub2.

(** The service is unreachable: every call raises a new [ConnectionError]. *)
Definition down : client_api nat :=
  mk_client
    (fun _ _ => Stub.tick (fun n => Raise (mk_exn ConnectionError n None)))
    (fun _ => Stub.tick (fun n => Raise (mk_exn ConnectionError n None)))
    (fun _ _ _ =>
       Stub.tick (fun n => Raise (mk_exn ConnectionError n None))).

(** Converters for the chunk loop: one that always fails, one that
    always returns a path. *)
Definition failing_converter
    : string -> option string -> string -> M nat (option string) :=
  fun _ _ _ => ret None.

Definition naming_converter
    : string -> option string -> string -> M nat (option string) :=
  fun path _ _ => ret (Some ("out/" ++ path)%string).

(** A disk on which [out.md] cannot be written. *)
Definition protected : env nat :=
  mk_env 0%nat (list_to_map [("c1.md", TextFile "A")]) {["out.md"]}.

End Stub2.

(** ** Running the monad *)

Ltac run :=
  cbv beta iota delta
    [bind try_except try_except_on attempt scope when print emit time_sleep
     ret raise raise_last of_outcome].

Lemma timeline_app (l1 l2 : list event) :
  timeline (l1 ++ l2) = timeline l1 ++ timeline l2.
Proof.
  induction l1 as [|[m|d|p x|l inner raised] l1 IH]; cbn; congruence.
Qed.

Lemma sleeps_app (l1 l2 : list event) :
  sleeps (l1 ++ l2) = sleeps l1 ++ sleeps l2.
Proof.
  induction l1 as [|[m|d|p x|l inner raised] l1 IH]; cbn; congruence.
Qed.

Lemma invocations_app (l : label) (l1 l2 : list event) :
  invocations l (l1 ++ l2) = invocations l l1 ++ invocations l l2.
Proof.
  induction l1 as [|[m|d|p x|l' inner raised] l1 IH]; cbn; try congruence.
  destruct (decide (l' = l)); cbn; congruence.
Qed.

Lemma messages_app (l1 l2 : list event) :
  messages (l1 ++ l2) = messages l1 ++ messages l2.
Proof.
  induction l1 as [|[m|d|p x|l inner raised] l1 IH]; cbn; congruence.
Qed.

Lemma written_app (l1 l2 : list event) :
  written (l1 ++ l2) = written l1 ++ written l2.
Proof. unfold written. apply flat_map_app. Qed.

Section RetryFacts.

Context {R T : Type}.
Variables (N : Z) (f : Q) (classes : list exc_class) (name : string).
Variable func : M R T.

Lemma wrapper_loop_cons (retry : Z) (rest : list Z) (delay : Q)
    (last_exception : option exn) (s : env R) :
  wrapper_loop N f classes name func (retry :: rest) delay last_exception s =
    let pre := if 0 <? retry then [Printed (MsgRetry retry N)] else [] in
    match func s with
    | (Ret v, s1, l1) => (Ret v, s1, pre ++ [Scope (Call name) l1 None])
    | (Raise e, s1, l1) =>
        let caught :=
          pre ++ [Scope (Call name) l1 (Some e);
                  Printed (if bool_decide (status_code e = Some 502)
                         then MsgError502 else MsgErrorRetrying e)] in
        if isinstance e classes then
          if retry <? N then
            match wrapper_loop N f classes name func rest (delay * f)%Q
                    (Some e) s1 with
            | (r, s2, l2) =>
                (r, s2, caught ++ [Printed (MsgWaiting delay); Sleep delay] ++ l2)
            end
          else (Raise e, s1, caught ++ [Printed (MsgMaxRetries N)])
        else (Raise e, s1, pre ++ [Scope (Call name) l1 (Some e)])
    end.
Proof.
  cbn [wrapper_loop]. run.
  destruct (0 <? retry); run; destruct (func s) as [[[v|e] s1] l1];
    try reflexivity;
    destruct (isinstance e classes); try reflexivity;
    destruct (retry <? N); try reflexivity;
    destruct (wrapper_loop _ _ _ _ _ _ _ _ _) as [[r s2] l2]; reflexivity.
Qed.



End RetryFacts.



Lemma sleeps_timeline (log : list event) :
  sleeps log =
    omap (fun st => match st with Slept d => Some d | Called _ => None end)
      (timeline log).
Proof.
  induction log as [|[m|d|p x|l inner raised] log IH]; cbn; congruence.
Qed.





(** ** Functions that leave the file system alone *)

Section Quiet.

Context {R : Type}.

Lemma quiet_ret {A} (a : A) : quiet (ret (R := R) a).
Proof. intros s r s' l [= <- <- <-]. done. Qed.

Lemma quiet_raise {A} (e : exn) : quiet (raise (R := R) (A := A) e).
Proof. intros s r s' l [= <- <- <-]. done. Qed.

Lemma quiet_print (m : msg) : quiet (print (R := R) m).
Proof. intros s r s' l [= <- <- <-]. done. Qed.

Lemma quiet_time_sleep (d : Q) : quiet (time_sleep (R := R) d).
Proof. intros s r s' l [= <- <- <-]. done. Qed.

Lemma quiet_bind {A B} (m : M R A) (k : A -> M R B) :
  quiet m -> (forall a, quiet (k a)) -> quiet (bind m k).
Proof.
  intros Hm Hk s r s' l. unfold bind.
  destruct (m s) as [[[a|e] s1] l1] eqn:E1.
  - destruct (k a s1) as [[r2 s2] l2] eqn:E2. intros [= <- <- <-].
    destruct (Hm _ _ _ _ E1) as (F1 & D1 & W1).
    destruct (Hk _ _ _ _ _ E2) as (F2 & D2 & W2).
    rewrite written_app, W1, W2. split_and!; [congruence|congruence|done].
  - intros [= <- <- <-]. by apply (Hm _ _ _ _ E1).
Qed.

Lemma quiet_try_except {A} (m : M R A) (h : exn -> M R A) :
  quiet m -> (forall e, quiet (h e)) -> quiet (try_except m h).
Proof.
  intros Hm Hh s r s' l. unfold try_except.
  destruct (m s) as [[[a|e] s1] l1] eqn:E1.
  - intros [= <- <- <-]. by apply (Hm _ _ _ _ E1).
  - destruct (h e s1) as [[r2 s2] l2] eqn:E2. intros [= <- <- <-].
    destruct (Hm _ _ _ _ E1) as (F1 & D1 & W1).
    destruct (Hh _ _ _ _ _ E2) as (F2 & D2 & W2).
    rewrite written_app, W1, W2. split_and!; [congruence|congruence|done].
Qed.

Lemma quiet_try_except_on {A} (classes : list exc_class) (m : M R A)
    (h : exn -> M R A) :
  quiet m -> (forall e, quiet (h e)) -> quiet (try_except_on classes m h).
Proof.
  intros Hm Hh. apply quiet_try_except; [done|].
  intros e. destruct (isinstance e classes); [done|apply quiet_raise].
Qed.

Lemma quiet_scope {A} (l : label) (m : M R A) : quiet m -> quiet (scope l m).
Proof.
  intros Hm s r s' lg. unfold scope.
  destruct (m s) as [[[a|e] s1] l1] eqn:E1; intros [= <- <- <-];
    destruct (Hm _ _ _ _ E1) as (F1 & D1 & W1);
    unfold written in *; cbn; rewrite W1; done.
Qed.

Lemma quiet_attempt {A} (m : M R A) : quiet m -> quiet (attempt m).
Proof.
  intros Hm s r s' lg. unfold attempt.
  destruct (m s) as [[r1 s1] l1] eqn:E1. intros [= <- <- <-].
  by apply (Hm _ _ _ _ E1).
Qed.

Lemma quiet_when (b : bool) (m : M R unit) : quiet m -> quiet (when b m).
Proof. destruct b; [done|]. intros _. apply quiet_ret. Qed.

Lemma quiet_remote_call {A} (op : R -> outcome A * R) :
  quiet (remote_call op).
Proof.
  intros s r s' l. unfold remote_call.
  destruct (op (remote s)) as [r1 rs]. intros [= <- <- <-]. done.
Qed.

Lemma quiet_read_bytes (path : string) : quiet (read_bytes (R := R) path).
Proof.
  intros s r s' l. unfold read_bytes.
  destruct (fs s !! path); intros [= <- <- <-]; done.
Qed.

Lemma quiet_os_path_exists (path : string) :
  quiet (os_path_exists (R := R) path).
Proof. intros s r s' l [= <- <- <-]. done. Qed.

Lemma quiet_wrapper_loop {T} (N : Z) (f : Q) (classes : list exc_class)
    (name : string) (func : M R T) :
  quiet func ->
  forall retries delay last_exception,
    quiet (wrapper_loop N f classes name func retries delay last_exception).
Proof.
  intros Hf retries.
  induction retries as [|retry rest IH]; intros delay last_exception.
  - destruct last_exception; apply quiet_raise.
  - cbn [wrapper_loop].
    apply quiet_try_except_on.
    + apply quiet_bind; [apply quiet_when, quiet_print|].
      intros _. by apply quiet_scope.
    + intros e. apply quiet_bind; [apply quiet_print|]. intros _.
      destruct (retry <? N).
      * apply quiet_bind; [apply quiet_print|]. intros _.
        apply quiet_bind; [apply quiet_time_sleep|]. intros _. apply IH.
      * apply quiet_bind; [apply quiet_print|]. intros _. apply quiet_raise.
Qed.

Lemma quiet_retry_on_error {T} (N : Z) (d f : Q) (classes : list exc_class)
    (name : string) (func : M R T) :
  quiet func -> quiet (retry_on_error N d f classes name func).
Proof. intros Hf. by apply quiet_wrapper_loop. Qed.

Variables (os : os_api) (client : client_api R).

Lemma quiet_upload (file_path : string) :
  quiet (upload_file_to_ocr_service os client file_path).
Proof.
  apply quiet_retry_on_error.
  apply quiet_bind; [apply quiet_print|]. intros _.
  apply quiet_try_except_on.
  - apply quiet_bind; [apply quiet_read_bytes|]. intros content.
    apply quiet_bind; [apply quiet_remote_call|]. intros uploaded_id.
    apply quiet_remote_call.
  - intros e. apply quiet_bind; [|intros _; apply quiet_raise].
    destruct (status_code e); [apply quiet_print|apply quiet_ret].
Qed.

Lemma quiet_process_with_ocr (document_url model : string) :
  quiet (process_with_ocr client document_url model).
Proof.
  apply quiet_retry_on_error.
  apply quiet_bind; [apply quiet_print|]. intros _. apply quiet_remote_call.
Qed.

Lemma quiet_process_image_with_ocr (image_url model : string) :
  quiet (process_image_with_ocr client image_url model).
Proof.
  apply quiet_retry_on_error.
  apply quiet_bind; [apply quiet_print|]. intros _. apply quiet_remote_call.
Qed.

End Quiet.

Ltac simpl_written :=
  repeat rewrite written_app;
  repeat match goal with H : written _ = _ |- _ => rewrite H end;
  cbn [written flat_map written_by app].

Section ConvertFacts.

Context {R : Type}.

Lemma write_text_run (path text : string) (s : env R) :
  write_text path text s =
    if bool_decide (path ∈ denied s)
    then (Raise (mk_exn PermissionError 0 None), s, [])
    else (Ret tt,
          mk_env (remote s) (<[path := TextFile text]> (fs s)) (denied s),
          [Wrote path (TextFile text)]).
Proof.
  unfold write_text, open_w, append_text, close_file. run.
  destruct (bool_decide (path ∈ denied s)); [done|]. cbn.
  rewrite lookup_insert_eq. cbn. rewrite lookup_insert_eq.
  by rewrite insert_insert_eq.
Qed.

Lemma report_usage_run (resp : OCRResponse) (with_size : bool) (s : env R) :
  exists l,
    written l = [] /\
    report_usage resp with_size s =
      (match usage_failure resp with
       | Some e => Raise e
       | None => Ret tt
       end, s, l).
Proof.
  unfold report_usage, usage_failure. run.
  destruct (resp_dump resp) as [[[p d|]|]|e]; cbn;
    try destruct with_size; cbn; eexists; split; try reflexivity; done.
Qed.

Lemma wrapper_loop_ret {T} (N : Z) (f : Q) (classes : list exc_class)
    (name : string) (func : M R T) (retries : list Z) :
  forall delay last_exception s v s' log,
    wrapper_loop N f classes name func retries delay last_exception s
      = (Ret v, s', log) ->
    exists s0 s1 l1, func s0 = (Ret v, s1, l1).
Proof.
  induction retries as [|retry rest IH]; intros delay last_exception s v s' log.
  - destruct last_exception; discriminate.
  - rewrite wrapper_loop_cons. cbv zeta.
    destruct (func s) as [[[v0|e] s1] l1] eqn:E.
    + intros [= <- <- <-]. eauto.
    + destruct (isinstance e classes); [|discriminate].
      destruct (retry <? N); [|discriminate].
      destruct (wrapper_loop _ _ _ _ _ _ _ _ _) as [[r s2] l2] eqn:E2.
      intros [= -> <- <-]. eauto.
Qed.

Variables (os : os_api) (client : client_api R).

Lemma process_with_ocr_ret (url model : string) (s : env R)
    (resp : OCRResponse) (s' : env R) (log : list event) :
  process_with_ocr client url model s = (Ret resp, s', log) ->
  exists rs rs',
    ocr_process client (DocumentURLChunk url) model (Some false) rs
      = (Ret resp, rs').
Proof.
  intros H. apply wrapper_loop_ret in H as (s0 & s1 & l1 & H).
  revert H. unfold remote_call. run.
  destruct (ocr_process _ _ _ _ _) as [[v|e] rs] eqn:E; intros [= <- <- <-].
  eauto.
Qed.

Lemma convert_pdf_cases (pdf_path : string) (output_path : option string)
    (model : string) (s : env R) :
  exists r s' log,
    convert_pdf_to_markdown os client pdf_path output_path model s
      = (Ret r, s', log) /\
    match r with
    | Some p =>
        p = default_md os pdf_path output_path /\
        exists text,
          written log = [(p, TextFile text)] /\
          fs s' = <[p := TextFile text]> (fs s)
    | None =>
        (written log = [] /\ fs s' = fs s) \/
        (exists resp rs rs' url e,
           ocr_process client (DocumentURLChunk url) model (Some false) rs
             = (Ret resp, rs') /\
           usage_failure resp = Some e)
    end.
Proof.
  unfold convert_pdf_to_markdown, os_path_exists.
  unfold bind at 1. cbn.
  destruct (bool_decide (is_Some (fs s !! pdf_path))); cbn.
  2:{ do 3 eexists. split; [reflexivity|]. left. done. }
  unfold try_except. unfold bind at 1. unfold attempt at 1.
  destruct (upload_file_to_ocr_service os client pdf_path s)
    as [[[url|e] s1] l1] eqn:EU;
    destruct (quiet_upload os client pdf_path _ _ _ _ EU) as (F1 & D1 & W1).
  2:{ run. do 3 eexists. split; [reflexivity|]. left.
      simpl_written. split; [done|congruence]. }
  unfold bind at 1. unfold attempt at 1. unfold bind at 1. unfold print at 1.
  unfold emit.
  destruct (process_with_ocr client url model s1)
    as [[[resp|e] s2] l2] eqn:EP;
    destruct (quiet_process_with_ocr client url model _ _ _ _ EP)
      as (F2 & D2 & W2).
  2:{ run. do 3 eexists. split; [reflexivity|]. left.
      simpl_written. split; [done|congruence]. }
  cbv zeta. unfold bind at 1. rewrite write_text_run.
  destruct (bool_decide (default_md os pdf_path output_path ∈ denied s2)).
  { run. do 3 eexists. split; [reflexivity|]. left.
    simpl_written. split; [done|congruence]. }
  unfold bind at 1. unfold print at 1. unfold emit. unfold bind at 1.
  match goal with
  | |- context [report_usage resp true ?s3] =>
      destruct (report_usage_run resp true s3) as (l3 & W3 & ->)
  end.
  destruct (process_with_ocr_ret _ _ _ _ _ _ EP) as (rs & rs' & Hresp).
  destruct (usage_failure resp) as [e|] eqn:EF.
  - run. do 3 eexists. split; [reflexivity|]. right.
    by exists resp, rs, rs', url, e.
  - run. do 3 eexists. split; [reflexivity|]. split; [done|].
    eexists. simpl_written. split; [reflexivity|]. cbn. congruence.
Qed.

Lemma process_image_with_ocr_ret (url model : string) (s : env R)
    (resp : OCRResponse) (s' : env R) (log : list event) :
  process_image_with_ocr client url model s = (Ret resp, s', log) ->
  exists rs rs',
    ocr_process client (ImageURLChunk url) model None rs = (Ret resp, rs').
Proof.
  intros H. apply wrapper_loop_ret in H as (s0 & s1 & l1 & H).
  revert H. unfold remote_call. run.
  destruct (ocr_process _ _ _ _ _) as [[v|e] rs] eqn:E; intros [= <- <- <-].
  eauto.
Qed.

Lemma convert_image_cases (image_path : string)
    (output_path : option string) (model : string) (s : env R) :
  exists r s' log,
    convert_image_to_markdown os client image_path output_path model s
      = (Ret r, s', log) /\
    match r with
    | Some p =>
        p = default_md os image_path output_path /\
        exists text,
          written log = [(p, TextFile text)] /\
          fs s' = <[p := TextFile text]> (fs s)
    | None =>
        (written log = [] /\ fs s' = fs s) \/
        (exists resp rs rs' url e,
           ocr_process client (ImageURLChunk url) model None rs
             = (Ret resp, rs') /\
           usage_failure resp = Some e)
    end.
Proof.
  unfold convert_image_to_markdown, os_path_exists.
  unfold bind at 1. cbn.
  destruct (bool_decide (is_Some (fs s !! image_path))); cbn.
  2:{ do 3 eexists. split; [reflexivity|]. left. done. }
  unfold try_except. unfold bind at 1. unfold print at 1. unfold emit.
  unfold bind at 1. unfold read_bytes at 1.
  destruct (fs s !! image_path) as [content|].
  2:{ run. do 3 eexists. split; [reflexivity|]. left. done. }
  unfold bind at 1. unfold attempt at 1.
  destruct (process_image_with_ocr client (data_url os content) model s)
    as [[[resp|e] s2] l2] eqn:EP;
    destruct (quiet_process_image_with_ocr client _ model _ _ _ _ EP)
      as (F2 & D2 & W2).
  2:{ run. do 3 eexists. split; [reflexivity|]. left.
      simpl_written. split; [done|congruence]. }
  cbv zeta. unfold bind at 1. rewrite write_text_run.
  destruct (bool_decide (default_md os image_path output_path ∈ denied s2)).
  { run. do 3 eexists. split; [reflexivity|]. left.
    simpl_written. split; [done|congruence]. }
  unfold bind at 1. unfold print at 1. unfold emit. unfold bind at 1.
  match goal with
  | |- context [report_usage resp false ?s3] =>
      destruct (report_usage_run resp false s3) as (l3 & W3 & ->)
  end.
  destruct (process_image_with_ocr_ret _ _ _ _ _ _ EP) as (rs & rs' & Hresp).
  destruct (usage_failure resp) as [e|] eqn:EF.
  - run. do 3 eexists. split; [reflexivity|]. right.
    by exists resp, rs, rs', (data_url os content), e.
  - run. do 3 eexists. split; [reflexivity|]. split; [done|].
    eexists. simpl_written. split; [reflexivity|]. cbn. congruence.
Qed.

Lemma convert_pdf_upload_failure (pdf_path : string)
    (output_path : option string) (model : string) (s : env R)
    (e : exn) (s1 : env R) (l1 : list event) :
  is_Some (fs s !! pdf_path) ->
  upload_file_to_ocr_service os client pdf_path s = (Raise e, s1, l1) ->
  convert_pdf_to_markdown os client pdf_path output_path model s
    = (Ret None, s1, l1 ++ [Printed (MsgUploadFailed e); Printed MsgHint]).
Proof.
  intros Hf HU. unfold convert_pdf_to_markdown, os_path_exists.
  unfold bind at 1. cbn. rewrite bool_decide_true by done. cbn.
  unfold try_except. unfold bind at 1. unfold attempt at 1. rewrite HU.
  run. by rewrite !app_nil_r.
Qed.

Lemma convert_pdf_ocr_failure (pdf_path : string)
    (output_path : option string) (model : string) (s : env R)
    (url : string) (s1 : env R) (l1 : list event)
    (e : exn) (s2 : env R) (l2 : list event) :
  is_Some (fs s !! pdf_path) ->
  upload_file_to_ocr_service os client pdf_path s = (Ret url, s1, l1) ->
  process_with_ocr client url model s1 = (Raise e, s2, l2) ->
  convert_pdf_to_markdown os client pdf_path output_path model s
    = (Ret None, s2,
       l1 ++ Printed (MsgProcessingFile (path_name os pdf_path)) :: l2
          ++ [Printed (MsgOcrFailed e); Printed MsgHint]).
Proof.
  intros Hf HU HP. unfold convert_pdf_to_markdown, os_path_exists.
  unfold bind at 1. cbn. rewrite bool_decide_true by done. cbn.
  unfold try_except. unfold bind at 1. unfold attempt at 1. rewrite HU.
  unfold bind at 1. unfold attempt at 1. unfold bind at 1. unfold print at 1.
  unfold emit. rewrite HP.
  run. by rewrite !app_nil_r.
Qed.

End ConvertFacts.

(** ** Splitting *)

Lemma ceil_spec (a b : Z) :
  0 < b -> b * (- ((- a) / b) - 1) < a <= b * - ((- a) / b).
Proof.
  intros Hb.
  pose proof (Z.div_mod (- a) b ltac:(lia)) as E.
  pose proof (Z.mod_pos_bound (- a) b Hb) as B.
  nia.
Qed.

Lemma concat_chunks {A} (p k : nat) :
  forall l : list A,
    (length l <= k * p)%nat ->
    concat (map (fun i => take p (drop (i * p) l)) (seq 0 k)) = l.
Proof.
  induction k as [|k IH]; intros l Hl.
  - destruct l; [done|cbn in Hl; lia].
  - cbn [seq map concat]. rewrite <- seq_shift, map_map.
    rewrite drop_0.
    rewrite (map_ext _ (fun i => take p (drop (i * p) (drop p l)))).
    + rewrite IH; [apply take_drop|]. rewrite length_drop. lia.
    + intros i. by rewrite drop_drop.
Qed.

Section SplitFacts.

Context {R : Type}.

Lemma write_pdf_run (path : string) (pages : list page) (s : env R) :
  write_pdf path pages s =
    if bool_decide (path ∈ denied s)
    then (Raise (mk_exn PermissionError 0 None), s, [])
    else (Ret tt,
          mk_env (remote s) (<[path := PdfFile pages]> (fs s)) (denied s),
          [Wrote path (PdfFile pages)]).
Proof.
  unfold write_pdf, open_w, close_file. run.
  destruct (bool_decide (path ∈ denied s)); [done|]. cbn.
  rewrite lookup_insert_eq. by rewrite insert_insert_eq.
Qed.

Lemma py_index_nat (pages : list page) (i : nat) (p : page) (s : env R) :
  pages !! i = Some p -> py_index pages (Z.of_nat i) s = (Ret p, s, []).
Proof.
  intros Hp. unfold py_index. cbv zeta.
  assert (E : (Z.of_nat i <? 0) = false) by (apply Z.ltb_ge; lia).
  by rewrite !E, Nat2Z.id, Hp.
Qed.

Lemma add_pages_range (pages : list page) (s : env R) (n : nat) :
  forall (start : nat) (pdf_writer : list page),
    (start + n <= length pages)%nat ->
    add_pages pages
      (map (fun k => Z.of_nat start + Z.of_nat k) (seq 0 n)) pdf_writer s
    = (Ret (pdf_writer ++ take n (drop start pages)), s, []).
Proof.
  induction n as [|n IH]; intros start pdf_writer Hn.
  - cbn. unfold ret. by rewrite app_nil_r.
  - cbn [seq map add_pages]. unfold bind at 1.
    destruct (lookup_lt_is_Some_2 pages start ltac:(lia)) as [p Hp].
    replace (Z.of_nat start + Z.of_nat 0) with (Z.of_nat start) by lia.
    rewrite (py_index_nat _ _ _ _ Hp).
    rewrite <- seq_shift, map_map.
    rewrite (map_ext _ (fun k => Z.of_nat (S start) + Z.of_nat k))
      by (intros; lia).
    rewrite IH by lia. cbn [app].
    rewrite (drop_S _ _ _ Hp). cbn [take]. by rewrite <- app_assoc.
Qed.

Lemma add_pages_chunk (pages : list page) (s : env R) (i p : nat) :
  add_pages pages
    (py_range2 (Z.of_nat i * Z.of_nat p)
       (Z.min ((Z.of_nat i + 1) * Z.of_nat p) (Z.of_nat (length pages)))) [] s
  = (Ret (take p (drop (i * p) pages)), s, []).
Proof.
  unfold py_range2.
  replace ((Z.of_nat i + 1) * Z.of_nat p)
    with (Z.of_nat (i * p) + Z.of_nat p) by lia.
  replace (Z.of_nat i * Z.of_nat p) with (Z.of_nat (i * p)) by lia.
  generalize (i * p)%nat as a. intros a.
  destruct (decide (a <= length pages)%nat) as [Hle|Hgt].
  - rewrite add_pages_range by lia. cbn [app]. do 2 f_equal.
    destruct (decide (a + p <= length pages)%nat).
    + by replace (Z.to_nat _) with p by lia.
    + rewrite !take_ge; [done|rewrite length_drop; lia..].
  - replace (Z.to_nat _) with 0%nat by lia. cbn.
    rewrite drop_ge by lia. by rewrite take_nil.
Qed.

Variable os : os_api.

Lemma split_loop_run (pages : list page) (dir base : string) (p : nat)
    (n : nat) :
  forall (a : nat) (chunk_paths : list string) (s : env R),
    denied s = ∅ ->
    let paths := map (fun i => chunk_file os dir base (Z.of_nat i)) (seq a n) in
    let parts := map (fun i => take p (drop (i * p) pages)) (seq a n) in
    exists s',
      split_loop os pages dir base (Z.of_nat p) (Z.of_nat (length pages))
        (map Z.of_nat (seq a n)) chunk_paths s
      = (Ret (chunk_paths ++ paths), s',
         map (fun pf => Wrote pf.1 (PdfFile pf.2)) (zip paths parts)) /\
      remote s' = remote s /\ denied s' = ∅.
Proof.
  induction n as [|n IH]; intros a chunk_paths s Hd; cbn zeta.
  - exists s. cbn. unfold ret. by rewrite app_nil_r.
  - cbn [seq map split_loop zip zip_with]. unfold bind at 1.
    rewrite add_pages_chunk. unfold bind at 1. rewrite write_pdf_run, Hd.
    rewrite bool_decide_false by set_solver.
    match goal with
    | |- context [split_loop _ _ _ _ _ _ _ ?acc ?s1] =>
        destruct (IH (S a) acc s1 eq_refl) as (s' & -> & Hr & Hd')
    end.
    exists s'. rewrite <- app_assoc. done.
Qed.

Lemma split_pdf_run (pdf_path : string) (output_dir : option string)
    (num_chunks : Z) (s : env R) (pages : list page) :
  fs s !! pdf_path = Some (PdfFile pages) ->
  num_chunks <> 0 ->
  denied s = ∅ ->
  let total_pages := Z.of_nat (length pages) in
  let pages_per_chunk := Z.max 1 (- ((- total_pages) / num_chunks)) in
  let actual_chunks := - ((- total_pages) / pages_per_chunk) in
  let dir := split_dir os pdf_path output_dir in
  let indices := seq 0 (Z.to_nat actual_chunks) in
  let paths :=
    map (fun i => chunk_file os dir (split_base os pdf_path) (Z.of_nat i))
      indices in
  let parts :=
    map (fun i => take (Z.to_nat pages_per_chunk)
                    (drop (i * Z.to_nat pages_per_chunk) pages)) indices in
  exists s',
    split_pdf os pdf_path output_dir num_chunks s
    = (Ret paths, s',
       Printed (MsgSplitting pdf_path actual_chunks pages_per_chunk)
         :: map (fun pf => Wrote pf.1 (PdfFile pf.2)) (zip paths parts)
         ++ [Printed (MsgSplitDone (length paths) dir)]) /\
    remote s' = remote s.
Proof.
  intros Hf Hn Hd. cbv zeta.
  set (total_pages := Z.of_nat (length pages)).
  set (ppc := Z.max 1 _).
  unfold split_pdf. unfold bind at 1. unfold pdf_reader, read_bytes.
  unfold bind at 1. rewrite Hf. unfold ret at 1. unfold ret at 1.
  unfold bind at 1. unfold ceil_div at 1.
  rewrite bool_decide_false by done. unfold ret at 1.
  fold total_pages. fold ppc.
  unfold bind at 1. unfold ceil_div at 1.
  rewrite bool_decide_false by lia. unfold ret at 1.
  unfold bind at 1. unfold print at 1. unfold emit. unfold bind at 1.
  unfold py_range.
  assert (Hdir : match output_dir with
                 | Some d =>
                     if bool_decide (d = "")
                     then os_path_join os (os_path_dirname os pdf_path)
                            "split_pdfs"
                     else d
                 | None =>
                     os_path_join os (os_path_dirname os pdf_path)
                       "split_pdfs"
                 end = split_dir os pdf_path output_dir).
  { unfold split_dir, falsy.
    destruct output_dir as [d|]; [destruct (bool_decide (d = ""))|]; done. }
  rewrite !Hdir. fold (split_base os pdf_path).
  destruct (split_loop_run pages (split_dir os pdf_path output_dir)
              (split_base os pdf_path) (Z.to_nat ppc)
              (Z.to_nat (- (- total_pages / ppc))) 0 [] s Hd)
    as (s' & Hrun & Hr & _).
  replace (Z.of_nat (Z.to_nat ppc)) with ppc in Hrun by lia.
  fold total_pages in Hrun. rewrite Hrun.
  exists s'. split; [|done]. run. cbn [app]. reflexivity.
Qed.

End SplitFacts.

Section SplitTheorems.

Context {R : Type} (os : os_api).

Lemma written_wrote (l : list (string * list page)) :
  written (map (fun pf => Wrote pf.1 (PdfFile pf.2)) l)
  = map (fun pf => (pf.1, PdfFile pf.2)) l.
Proof. induction l as [|[a b] l IH]; cbn; [done|]. by f_equal. Qed.

Lemma zip_fmap_pdf (paths : list string) (parts : list (list page)) :
  map (fun pf : string * list page => (pf.1, PdfFile pf.2)) (zip paths parts)
  = zip paths (PdfFile <$> parts).
Proof.
  revert parts. induction paths as [|a paths IH]; intros [|b parts]; cbn;
    [done..|]. by rewrite IH.
Qed.

Lemma split_pdf_chunks (pdf_path : string) (output_dir : option string)
    (num_chunks : Z) (s : env R) (pages : list page) :
  fs s !! pdf_path = Some (PdfFile pages) ->
  denied s = ∅ ->
  (1 <= length pages)%nat ->
  1 <= num_chunks ->
  exists (p k : nat) (chunk_paths : list string) (s' : env R)
         (log : list event),
    split_pdf os pdf_path output_dir num_chunks s
      = (Ret chunk_paths, s', log) /\
    written log = zip chunk_paths (PdfFile <$> chunks_of pages p k) /\
    length chunk_paths = k /\
    Z.of_nat p
      = Z.max 1 (- ((- Z.of_nat (length pages)) / num_chunks)) /\
    num_chunks * (Z.of_nat p - 1) < Z.of_nat (length pages)
      <= num_chunks * Z.of_nat p /\
    ((k - 1) * p < length pages <= k * p)%nat /\
    (1 <= p)%nat /\ (1 <= k)%nat.
Proof.
  intros Hf Hd Hlen Hn.
  destruct (split_pdf_run os pdf_path output_dir num_chunks s pages Hf
              ltac:(lia) Hd) as (s' & Hrun & _).
  cbv zeta in Hrun.
  set (total := Z.of_nat (length pages)) in *.
  pose proof (ceil_spec total num_chunks ltac:(lia)) as Hq.
  set (q := - (- total / num_chunks)) in *.
  assert (1 <= q) by nia.
  replace (Z.max 1 q) with q in * by lia.
  pose proof (ceil_spec total q ltac:(lia)) as Hk.
  set (k := - (- total / q)) in *.
  assert (1 <= k) by nia.
  exists (Z.to_nat q), (Z.to_nat k). do 3 eexists.
  split; [exact Hrun|].
  split.
  { change (?x :: ?l ++ ?l') with ([x] ++ l ++ l').
    rewrite !written_app, written_wrote, zip_fmap_pdf. cbn.
    by rewrite app_nil_r. }
  split; [by rewrite length_map, length_seq|].
  split; [lia|]. split; [lia|]. split; [|lia].
  subst total. nia.
Qed.

Lemma chunks_of_length (pages : list page) (p k : nat) :
  length (chunks_of pages p k) = k.
Proof. unfold chunks_of. by rewrite length_map, length_seq. Qed.

Lemma chunks_of_lookup (pages : list page) (p k i : nat)
    (part : list page) :
  chunks_of pages p k !! i = Some part ->
  (i < k)%nat /\ part = take p (drop (i * p) pages).
Proof.
  unfold chunks_of. rewrite list_lookup_fmap.
  destruct (seq 0 k !! i) as [j|] eqn:E; [|done].
  apply lookup_seq in E as [-> ?]. cbn. intros [= <-]. done.
Qed.

Lemma chunks_of_concat (pages : list page) (p k : nat) :
  (length pages <= k * p)%nat -> concat (chunks_of pages p k) = pages.
Proof. apply concat_chunks. Qed.

Lemma sum_list_length_concat {A} (ls : list (list A)) :
  sum_list (length <$> ls) = length (concat ls).
Proof.
  induction ls as [|l ls IH]; cbn; [done|]. rewrite length_app. lia.
Qed.

(** C1: on a document of at least one page, cut into at least one chunk,
    [split_pdf] writes chunk files whose pages, laid end to end in the
    order of the chunks, are exactly the pages of the document: the page
    counts add up to [total_pages], the ranges are ascending, contiguous
    and disjoint, and no chunk is empty. *)
Theorem split_pdf_partitions (pdf_path : string)
    (output_dir : option string) (num_chunks : Z) (s : env R)
    (pages : list page) :
  fs s !! pdf_path = Some (PdfFile pages) ->
  denied s = ∅ ->
  (1 <= length pages)%nat ->
  1 <= num_chunks ->
  exists (chunk_paths : list string) (parts : list (list page))
         (s' : env R) (log : list event),
    split_pdf os pdf_path output_dir num_chunks s
      = (Ret chunk_paths, s', log) /\
    written log = zip chunk_paths (PdfFile <$> parts) /\
    length parts = length chunk_paths /\
    concat parts = pages /\
    sum_list (length <$> parts) = length pages /\
    Forall (fun part => part <> []) parts.
Proof.
  intros Hf Hd Hlen Hn.
  destruct (split_pdf_chunks pdf_path output_dir num_chunks s pages
              Hf Hd Hlen Hn)
    as (p & k & paths & s' & log & Hrun & Hw & Hk & _ & _ & Hb & Hp & Hk1).
  exists paths, (chunks_of pages p k), s', log.
  split; [done|]. split; [done|].
  split; [by rewrite chunks_of_length|].
  assert (Hc : concat (chunks_of pages p k) = pages)
    by (apply chunks_of_concat; lia).
  split; [done|]. split; [by rewrite sum_list_length_concat, Hc|].
  apply Forall_lookup. intros i part Hi.
  apply chunks_of_lookup in Hi as [Hik ->].
  intros E. apply (f_equal length) in E.
  rewrite length_take, length_drop in E. cbn in E. nia.
Qed.

(** C2: [pages_per_chunk] is [max(1, ceil(total_pages / num_chunks))];
    every chunk but the last holds [pages_per_chunk] pages, the last one
    the remainder, or a full chunk when the division is exact; with more
    chunks asked for than there are pages, every page is a chunk. *)
Theorem split_pdf_chunk_sizes (pdf_path : string)
    (output_dir : option string) (num_chunks : Z) (s : env R)
    (pages : list page) :
  fs s !! pdf_path = Some (PdfFile pages) ->
  denied s = ∅ ->
  (1 <= length pages)%nat ->
  1 <= num_chunks ->
  exists (pages_per_chunk : nat) (chunk_paths : list string)
         (parts : list (list page)) (s' : env R) (log : list event),
    split_pdf os pdf_path output_dir num_chunks s
      = (Ret chunk_paths, s', log) /\
    written log = zip chunk_paths (PdfFile <$> parts) /\
    length parts = length chunk_paths /\
    Z.of_nat pages_per_chunk
      = Z.max 1 (- ((- Z.of_nat (length pages)) / num_chunks)) /\
    num_chunks * (Z.of_nat pages_per_chunk - 1) < Z.of_nat (length pages)
      <= num_chunks * Z.of_nat pages_per_chunk /\
    (forall (i : nat) (part : list page),
       parts !! i = Some part -> (S i < length parts)%nat ->
       length part = pages_per_chunk) /\
    (forall part : list page,
       last parts = Some part ->
       length part =
         if decide (length pages `mod` pages_per_chunk = 0)%nat
         then pages_per_chunk
         else (length pages `mod` pages_per_chunk)%nat) /\
    (Z.of_nat (length pages) < num_chunks ->
     pages_per_chunk = 1%nat /\ length chunk_paths = length pages).
Proof.
  intros Hf Hd Hlen Hn.
  destruct (split_pdf_chunks pdf_path output_dir num_chunks s pages
              Hf Hd Hlen Hn)
    as (p & k & paths & s' & log & Hrun & Hw & Hk & Hpq & Hq & Hb & Hp & Hk1).
  exists p, paths, (chunks_of pages p k), s', log.
  split; [done|]. split; [done|].
  split; [by rewrite chunks_of_length|].
  split; [done|]. split; [done|]. rewrite chunks_of_length.
  split; [|split].
  - intros i part Hi Hlt. apply chunks_of_lookup in Hi as [Hik ->].
    rewrite length_take, length_drop. nia.
  - intros part Hl. rewrite last_lookup, chunks_of_length in Hl.
    apply chunks_of_lookup in Hl as [_ ->].
    rewrite length_take, length_drop.
    pose proof (Nat.div_mod_eq (length pages) p) as E.
    pose proof (Nat.mod_upper_bound (length pages) p ltac:(lia)) as B.
    destruct k as [|k']; [lia|]. cbn [Init.Nat.pred].
    replace (S k' - 1)%nat with k' in Hb by lia.
    revert E B Hb.
    generalize (length pages `div` p)%nat as d.
    generalize (length pages `mod` p)%nat as m. intros m d E B Hb.
    destruct (decide (m = 0)%nat) as [E0|E0].
    + assert (d = S k') by nia. nia.
    + assert (d = k') by nia. nia.
  - intros Hmore. assert (p = 1%nat) by nia. subst p. split; [done|]. lia.
Qed.

(** C3 as the code has it: a document without pages is split into no
    chunk at all, and the call returns normally; the call fails when the
    file is not a PDF. *)
Theorem split_pdf_no_pages (pdf_path : string)
    (output_dir : option string) (num_chunks : Z) (s : env R) :
  num_chunks <> 0 ->
  (fs s !! pdf_path = Some (PdfFile []) ->
   exists log,
     split_pdf os pdf_path output_dir num_chunks s = (Ret [], s, log) /\
     written log = []) /\
  (forall text : string,
     fs s !! pdf_path = Some (TextFile text) ->
     split_pdf os pdf_path output_dir num_chunks s
       = (Raise (mk_exn PdfReadError 0 None), s, [])).
Proof.
  intros Hn. split.
  - intros Hf. unfold split_pdf. unfold bind at 1.
    unfold pdf_reader, read_bytes. unfold bind at 1. rewrite Hf.
    unfold ceil_div. rewrite bool_decide_false by done.
    run. cbn [length Z.of_nat Z.opp]. rewrite Z.div_0_l by done.
    cbn. eexists. split; reflexivity.
  - intros text Hf. unfold split_pdf. unfold bind at 1.
    unfold pdf_reader, read_bytes. unfold bind at 1. by rewrite Hf.
Qed.

End SplitTheorems.

(** C9 as the code has it: when the upload or the OCR step raises, after
    its retries or at once, [convert_pdf_to_markdown] prints the cause and
    returns [None]; it raises nothing itself. *)
Theorem convert_pdf_failure_returns_none {R : Type} (os : os_api)
    (client : client_api R) (pdf_path : string)
    (output_path : option string) (model : string) (s : env R) :
  is_Some (fs s !! pdf_path) ->
  (forall (e : exn) (s1 : env R) (l1 : list event),
     upload_file_to_ocr_service os client pdf_path s = (Raise e, s1, l1) ->
     convert_pdf_to_markdown os client pdf_path output_path model s
       = (Ret None, s1, l1 ++ [Printed (MsgUploadFailed e); Printed MsgHint]))
  /\
  (forall (url : string) (s1 : env R) (l1 : list event)
          (e : exn) (s2 : env R) (l2 : list event),
     upload_file_to_ocr_service os client pdf_path s = (Ret url, s1, l1) ->
     process_with_ocr client url model s1 = (Raise e, s2, l2) ->
     convert_pdf_to_markdown os client pdf_path output_path model s
       = (Ret None, s2,
          l1 ++ Printed (MsgProcessingFile (path_name os pdf_path)) :: l2
             ++ [Printed (MsgOcrFailed e); Printed MsgHint])).
Proof.
  intros Hf. split.
  - intros e s1 l1. by apply convert_pdf_upload_failure.
  - intros url s1 l1 e s2 l2. by apply convert_pdf_ocr_failure.
Qed.


(** ** The chunked pipeline *)

Section ChunkedFacts.

Context {R : Type} (os : os_api).
Variable convert : string -> option string -> string -> M R (option string).

Lemma after_failure_run (i retry : Z) (e : option exn)
    (failed_chunks : list Z) (s : env R) :
  after_failure i retry e failed_chunks s =
    if retry <? max_chunk_retries
    then (Ret failed_chunks, s,
          [Printed (MsgChunkRetry (i + 1) (retry + 1) max_chunk_retries e);
           Sleep (inject_Z (2 * (retry + 1)))])
    else (Ret (failed_chunks ++ [i + 1]), s,
          [Printed (MsgChunkSkipped (i + 1) e)]).
Proof. unfold after_failure. destruct (retry <? max_chunk_retries); done. Qed.

(** One pass of the retry loop: the attempt either ends the loop with a
    result, or fails. *)
Lemma chunk_retry_loop_cons (i : Z) (chunk_path : string)
    (chunk_output_path : option string) (model : string)
    (retry : Z) (rest : list Z) (chunk_outputs : list string)
    (failed_chunks : list Z) (s : env R) :
  chunk_retry_loop convert i chunk_path chunk_output_path model
    (retry :: rest) chunk_outputs failed_chunks s =
  match convert chunk_path chunk_output_path model s with
  | (r, s1, l1) =>
      let raised := match r with Raise e => Some e | Ret _ => None end in
      let call := Scope (Attempt (i + 1) retry) l1 raised in
      match r with
      | Ret (Some p) =>
          if bool_decide (p = "") then
            match after_failure i retry None failed_chunks s1 with
            | (_, _, l2) =>
                match chunk_retry_loop convert i chunk_path chunk_output_path
                        model rest chunk_outputs
                        (if retry <? max_chunk_retries then failed_chunks
                         else failed_chunks ++ [i + 1]) s1 with
                | (r3, s3, l3) => (r3, s3, call :: l2 ++ l3)
                end
            end
          else (Ret (chunk_outputs ++ [p], failed_chunks), s1, [call])
      | _ =>
          match after_failure i retry raised failed_chunks s1 with
          | (_, _, l2) =>
              match chunk_retry_loop convert i chunk_path chunk_output_path
                      model rest chunk_outputs
                      (if retry <? max_chunk_retries then failed_chunks
                       else failed_chunks ++ [i + 1]) s1 with
              | (r3, s3, l3) => (r3, s3, call :: l2 ++ l3)
              end
          end
      end
  end.
Proof.
  cbn [chunk_retry_loop]. unfold bind at 1, attempt, scope.
  destruct (convert chunk_path chunk_output_path model s)
    as [[[[p|]|e] s1] l1]; cbv zeta beta iota; unfold falsy.
  - destruct (bool_decide (p = "")); [|by run].
    unfold bind at 1. rewrite after_failure_run.
    destruct (retry <? max_chunk_retries);
      destruct (chunk_retry_loop _ _ _ _ _ _ _ _ _) as [[r3 s3] l3]; done.
  - unfold bind at 1. rewrite after_failure_run.
    destruct (retry <? max_chunk_retries);
      destruct (chunk_retry_loop _ _ _ _ _ _ _ _ _) as [[r3 s3] l3]; done.
  - unfold bind at 1. rewrite after_failure_run.
    destruct (retry <? max_chunk_retries);
      destruct (chunk_retry_loop _ _ _ _ _ _ _ _ _) as [[r3 s3] l3]; done.
Qed.

Ltac chunk_attempt :=
  rewrite chunk_retry_loop_cons;
  match goal with
  | |- context [convert ?a ?b ?c ?s] =>
      let p := fresh "p" in
      let e := fresh "e" in
      let s1 := fresh "s" in
      let l1 := fresh "l" in
      destruct (convert a b c s) as [[[[p|]|e] s1] l1];
      cbv zeta beta iota;
      [destruct (bool_decide (p = "")) | | ];
      rewrite ?after_failure_run;
      change (0 <? max_chunk_retries) with true;
      change (1 <? max_chunk_retries) with true;
      change (2 <? max_chunk_retries) with false;
      cbv beta iota
  end.

Ltac close_chunk c :=
  exists c; do 2 eexists;
  cbn [outputs_of failed_of chunk_retry_loop]; unfold ret;
  rewrite ?app_nil_r;
  split; [reflexivity|split; [cbn; lia|reflexivity]].

Ltac close_success k :=
  match goal with
  | |- context [Ret (_ ++ [?p], _)] => close_chunk (Succeeded k p)
  end.

Lemma chunk_retry_loop_run (i : Z) (chunk_path : string)
    (chunk_output_path : option string) (model : string)
    (chunk_outputs : list string) (failed_chunks : list Z) (s : env R) :
  exists (c : chunk_run) (s' : env R) (log : list event),
    chunk_retry_loop convert i chunk_path chunk_output_path model
      (py_range (max_chunk_retries + 1)) chunk_outputs failed_chunks s
    = (Ret (chunk_outputs ++ outputs_of [c], failed_chunks ++ failed_of i [c]),
       s', log) /\
    (1 <= attempts_of c <= 3)%nat /\
    timeline log = chunk_schedule (i + 1) (attempts_of c).
Proof.
  change (py_range (max_chunk_retries + 1)) with [0; 1; 2].
  chunk_attempt; [| close_success 1%nat | |];
    (chunk_attempt; [| close_success 2%nat | |]);
    (chunk_attempt; [| close_success 3%nat | |]);
    close_chunk GaveUp.
Qed.

Lemma chunk_loop_run (output_path : option string) (model : string)
    (total : nat) (chunk_paths : list string) :
  forall (i : Z) (chunk_outputs : list string) (failed_chunks : list Z)
         (s : env R),
  exists (runs : list chunk_run) (s' : env R) (log : list event),
    chunk_loop os convert output_path model total i chunk_paths
      chunk_outputs failed_chunks s
    = (Ret (chunk_outputs ++ outputs_of runs,
            failed_chunks ++ failed_of i runs), s', log) /\
    length runs = length chunk_paths /\
    Forall (fun c => (1 <= attempts_of c <= 3)%nat) runs /\
    timeline log = schedule_of i runs.
Proof.
  induction chunk_paths as [|chunk_path rest IH];
    intros i chunk_outputs failed_chunks s.
  - exists [], s, []. cbn. unfold ret. by rewrite !app_nil_r.
  - cbn [chunk_loop]. unfold bind at 1, print at 1, emit.
    unfold bind at 1.
    match goal with
    | |- context [chunk_retry_loop convert i chunk_path ?cop model _ _ _ s] =>
        destruct (chunk_retry_loop_run i chunk_path cop model chunk_outputs
                    failed_chunks s) as (c & s1 & l1 & -> & Hc & Ht)
    end.
    cbn [fst snd].
    destruct (IH (i + 1) (chunk_outputs ++ outputs_of [c])
                (failed_chunks ++ failed_of i [c]) s1)
      as (runs & s' & log & -> & Hlen & Hall & Htl).
    exists (c :: runs), s'. eexists. split; [|split; [|split]].
    + rewrite <- !app_assoc. destruct c; reflexivity.
    + cbn. by rewrite Hlen.
    + by constructor.
    + cbn [app timeline schedule_of]. by rewrite timeline_app, Ht, Htl.
Qed.

End ChunkedFacts.


(** ** Merging *)

Lemma string_app_assoc (a b c : string) :
  ((a ++ b) ++ c = a ++ b ++ c)%string.
Proof.
  induction a as [|x a IH]; [reflexivity|].
  change (String x ((a ++ b) ++ c) = String x (a ++ b ++ c))%string.
  by rewrite IH.
Qed.




Section MergeFacts.

Context {R : Type}.



End MergeFacts.



(** ** The statements on the test doubles *)

Lemma split_pdf_partitions_witness :
  exists (chunk_paths : list string) (parts : list (list page))
         (s' : env nat) (log : list event),
    split_pdf Stub.os "a.pdf" None 2 Stub.five_pages
      = (Ret chunk_paths, s', log) /\
    written log = zip chunk_paths (PdfFile <$> parts) /\
    length parts = length chunk_paths /\
    concat parts = ["1"; "2"; "3"; "4"; "5"] /\
    sum_list (length <$> parts) = 5%nat /\
    Forall (fun part => part <> []) parts.
Proof.
  apply (split_pdf_partitions Stub.os "a.pdf" None 2 Stub.five_pages
           ["1"; "2"; "3"; "4"; "5"]).
  - reflexivity.
  - reflexivity.
  - cbn. lia.
  - lia.
Defined.

Lemma split_pdf_chunk_sizes_witness :
  exists (pages_per_chunk : nat) (chunk_paths : list string)
         (parts : list (list page)) (s' : env nat) (log : list event),
    split_pdf Stub.os "a.pdf" None 2 Stub.five_pages
      = (Ret chunk_paths, s', log) /\
    written log = zip chunk_paths (PdfFile <$> parts) /\
    length parts = length chunk_paths /\
    Z.of_nat pages_per_chunk = Z.max 1 (- ((- 5) / 2)) /\
    2 * (Z.of_nat pages_per_chunk - 1) < 5 <= 2 * Z.of_nat pages_per_chunk /\
    (forall (i : nat) (part : list page),
       parts !! i = Some part -> (S i < length parts)%nat ->
       length part = pages_per_chunk) /\
    (forall part : list page,
       last parts = Some part ->
       length part =
         if decide (5 `mod` pages_per_chunk = 0)%nat
         then pages_per_chunk
         else (5 `mod` pages_per_chunk)%nat) /\
    (5 < 2 -> pages_per_chunk = 1%nat /\ length chunk_paths = 5%nat).
Proof.
  apply (split_pdf_chunk_sizes Stub.os "a.pdf" None 2 Stub.five_pages
           ["1"; "2"; "3"; "4"; "5"]).
  - reflexivity.
  - reflexivity.
  - cbn. lia.
  - lia.
Defined.

(** A document without pages: [split_pdf] returns the empty list. *)
Lemma split_pdf_no_pages_returns :
  (split_pdf Stub.os "a.pdf" None 7 Stub.no_page).1.1 = Ret [].
Proof. vm_compute. reflexivity. Qed.

Lemma split_pdf_no_pages_witness :
  (exists log,
     split_pdf Stub.os "a.pdf" None 7 Stub.no_page
       = (Ret [], Stub.no_page, log) /\
     written log = []) /\
  split_pdf Stub.os "a.pdf" None 7 Stub.not_a_pdf
    = (Raise (mk_exn PdfReadError 0 None), Stub.not_a_pdf, []).
Proof.
  split.
  - apply (split_pdf_no_pages Stub.os "a.pdf" None 7 Stub.no_page); [lia|].
    reflexivity.
  - apply (split_pdf_no_pages Stub.os "a.pdf" None 7 Stub.not_a_pdf) with
      (text := "text"); [lia|].
    reflexivity.
Defined.






(** The upload fails with an error that is not retried, and the
    conversion returns [None] instead of raising. *)
Lemma convert_pdf_returns_none_on_upload_error :
  (upload_file_to_ocr_service Stub.os Stub.refused "a.pdf"
     Stub.one_page).1.1
  = Raise (mk_exn ValueError 0 None)
  /\
  (convert_pdf_to_markdown Stub.os Stub.refused "a.pdf" None "m"
     Stub.one_page).1.1
  = Ret None.
Proof. vm_compute. split; reflexivity. Qed.

Lemma convert_pdf_failure_returns_none_witness :
  (exists s1 log,
     convert_pdf_to_markdown Stub.os Stub.refused "a.pdf" None "m"
       Stub.one_page = (Ret None, s1, log))
  /\
  (exists s2 log,
     convert_pdf_to_markdown Stub.os Stub.unreadable "a.pdf" None "m"
       Stub.one_page = (Ret None, s2, log)).
Proof.
  split.
  - destruct (convert_pdf_failure_returns_none Stub.os Stub.refused "a.pdf"
                None "m" Stub.one_page) as [H _].
    { eexists. reflexivity. }
    do 2 eexists. eapply H. reflexivity.
  - destruct (convert_pdf_failure_returns_none Stub.os Stub.unreadable
                "a.pdf" None "m" Stub.one_page) as [_ H].
    { eexists. reflexivity. }
    do 2 eexists. eapply H; reflexivity.
Defined.




(** ** Further properties of [retry_on_error] *)

Section RetryProfile.

Context {R T : Type}.
Variables (N : Z) (f : Q) (classes : list exc_class) (name : string).
Variable func : M R T.


End RetryProfile.



(** X2: with a negative [max_retries] the loop of the wrapper does not run:
    the operation is never called and the wrapper raises a [TypeError]
    (it raises [last_exception], which is still [None]). *)
Theorem retry_on_error_negative_retries {R T : Type} (N : Z) (d f : Q)
    (classes : list exc_class) (name : string) (func : M R T) (s : env R) :
  N < 0 ->
  retry_on_error N d f classes name func s
  = (Raise (mk_exn TypeError 0 None), s, []).
Proof.
  intros HN. unfold retry_on_error, py_range.
  replace (Z.to_nat (N + 1)) with 0%nat by lia. reflexivity.
Qed.

Lemma retry_on_error_negative_retries_witness :
  retry_on_error (-1) 2 2 default_retry_on_exceptions "op" Stub.flaky
    Stub.one_page
  = (Raise (mk_exn TypeError 0 None), Stub.one_page, []).
Proof.
  apply (retry_on_error_negative_retries (-1) 2 2
           default_retry_on_exceptions "op" Stub.flaky Stub.one_page).
  lia.
Defined.

(** ** Further properties of the upload and of the conversion *)

Section RetryInvariant.

Context {R T : Type}.
Variables (N : Z) (f : Q) (classes : list exc_class) (name : string).
Variable func : M R T.
Variable Inv : env R -> Prop.

Hypothesis func_fails :
  forall s : env R, Inv s ->
  exists e s1 l1,
    func s = (Raise e, s1, l1) /\ isinstance e classes = true /\ Inv s1.

Lemma wrapper_loop_exhausted_inv (n : nat) :
  forall (a : nat) (delay : Q) (last_exception : option exn) (s : env R),
    Inv s ->
    Z.of_nat a + Z.of_nat (S n) = N + 1 ->
    exists (es : list exn) (e : exn) (s' : env R) (log : list event),
      wrapper_loop N f classes name func
        (map Z.of_nat (seq a (S n))) delay last_exception s
        = (Raise e, s', log) /\
      invocations (Call name) log = map Some es /\
      length es = S n /\
      last es = Some e /\
      sleeps log = backoff_delays delay f n /\
      Inv s'.
Proof.
  induction n as [|n IH]; intros a delay last_exception s HI Ha;
    cbn [seq map]; rewrite wrapper_loop_cons; cbv zeta;
    destruct (func_fails s HI) as (e & s1 & l1 & -> & -> & HI1).
  - replace (Z.of_nat a <? N) with false by (symmetry; apply Z.ltb_ge; lia).
    exists [e], e, s1. eexists. split; [reflexivity|].
    rewrite invocations_app, sleeps_app.
    destruct (0 <? Z.of_nat a); cbn; rewrite decide_True by done; done.
  - replace (Z.of_nat a <? N) with true by (symmetry; apply Z.ltb_lt; lia).
    destruct (IH (S a) (delay * f)%Q (Some e) s1 HI1 ltac:(lia))
      as (es & e' & s' & log & Hrun & Hinv & Hlen & Hlast & Hsl & HI').
    cbn [seq map] in Hrun. rewrite Hrun.
    exists (e :: es), e', s'. eexists. split; [reflexivity|].
    rewrite !invocations_app, !sleeps_app, Hinv, Hsl.
    split; [|split; [|split; [|split]]].
    + destruct (0 <? Z.of_nat a); cbn; rewrite decide_True by done; done.
    + cbn; lia.
    + destruct es; [discriminate|]. exact Hlast.
    + destruct (0 <? Z.of_nat a); reflexivity.
    + done.
Qed.

End RetryInvariant.

Section UploadFacts.

Context {R : Type} (os : os_api) (client : client_api R).

(** X3: uploading a file that does not exist fails at once with a
    [FileNotFoundError]: the error is not one of the retried ones, the
    body runs once, and the service is not contacted. *)
Theorem upload_missing_file (file_path : string) (s : env R) :
  fs s !! file_path = None ->
  upload_file_to_ocr_service os client file_path s
  = (Raise (mk_exn FileNotFoundError 0 None), s,
     [Scope (Call "upload_file_to_ocr_service")
        [Printed (MsgUploading (path_name os file_path))]
        (Some (mk_exn FileNotFoundError 0 None))]).
Proof.
  intros Hf. unfold upload_file_to_ocr_service, retry_on_error.
  change (py_range (3 + 1)) with [0; 1; 2; 3].
  rewrite wrapper_loop_cons. cbv zeta.
  unfold upload_file_to_ocr_service_body, read_bytes. run. rewrite Hf.
  reflexivity.
Qed.

Lemma upload_body_fails (file_path : string) (content : file) :
  upload_always_fails client ->
  forall s : env R,
    fs s !! file_path = Some content ->
    exists e s1 l1,
      upload_file_to_ocr_service_body os client file_path s
        = (Raise e, s1, l1) /\
      isinstance e default_retry_on_exceptions = true /\
      fs s1 !! file_path = Some content.
Proof.
  intros Hup s Hf.
  destruct (Hup (path_stem os file_path) content (remote s))
    as (e & rs' & Hcall & He).
  unfold upload_file_to_ocr_service_body, read_bytes, remote_call. run.
  rewrite Hf, Hcall.
  destruct (isinstance e [MistralAPIException]);
    [destruct (status_code e)|]; do 3 eexists; split; try reflexivity;
    split; done.
Qed.

(** X4: when the service refuses every upload with a retried error, the
    file is uploaded [4] times, with waits of [2], [4] and [8] seconds
    between the attempts, and the exception of the last attempt is
    raised. *)
Theorem upload_gives_up_after_four_attempts (file_path : string)
    (content : file) (s : env R) :
  upload_always_fails client ->
  fs s !! file_path = Some content ->
  exists (es : list exn) (e : exn) (s' : env R) (log : list event),
    upload_file_to_ocr_service os client file_path s = (Raise e, s', log) /\
    invocations (Call "upload_file_to_ocr_service") log = map Some es /\
    length es = 4%nat /\
    last es = Some e /\
    sleeps log = [2; 4; 8]%Q.
Proof.
  intros Hup Hf. unfold upload_file_to_ocr_service, retry_on_error.
  change (py_range (3 + 1)) with (map Z.of_nat (seq 0 4)).
  destruct (wrapper_loop_exhausted_inv 3 2 default_retry_on_exceptions
              "upload_file_to_ocr_service"
              (upload_file_to_ocr_service_body os client file_path)
              (fun s => fs s !! file_path = Some content)
              (upload_body_fails file_path content Hup)
              3 0 2%Q None s Hf ltac:(lia))
    as (es & e & s' & log & Hrun & Hinv & Hlen & Hlast & Hsl & _).
  exists es, e, s', log. done.
Qed.

End UploadFacts.

Lemma refused_upload_is_retried : upload_always_fails Stub2.down.
Proof. intros file_name content rs. do 2 eexists. split; reflexivity. Qed.

Lemma upload_missing_file_witness :
  upload_file_to_ocr_service Stub.os Stub.good "b.pdf" Stub.one_page
  = (Raise (mk_exn FileNotFoundError 0 None), Stub.one_page,
     [Scope (Call "upload_file_to_ocr_service")
        [Printed (MsgUploading "b.pdf")]
        (Some (mk_exn FileNotFoundError 0 None))]).
Proof.
  apply (upload_missing_file Stub.os Stub.good "b.pdf" Stub.one_page).
  reflexivity.
Defined.

Lemma upload_gives_up_after_four_attempts_witness :
  exists (es : list exn) (e : exn) (s' : env nat) (log : list event),
    upload_file_to_ocr_service Stub.os Stub2.down "a.pdf" Stub.one_page
      = (Raise e, s', log) /\
    invocations (Call "upload_file_to_ocr_service") log = map Some es /\
    length es = 4%nat /\
    last es = Some e /\
    sleeps log = [2; 4; 8]%Q.
Proof.
  apply (upload_gives_up_after_four_attempts Stub.os Stub2.down "a.pdf"
           (PdfFile ["x"]) Stub.one_page).
  - exact refused_upload_is_retried.
  - reflexivity.
Defined.

Lemma str_join_app (sep : string) (before after : list string) :
  before <> [] -> after <> [] ->
  str_join sep (before ++ after)
  = (str_join sep before ++ sep ++ str_join sep after)%string.
Proof.
  intros Hb Ha. induction before as [|p [|q rest] IH]; [done| |].
  - destruct after; [done|]. reflexivity.
  - change (str_join sep ((p :: q :: rest) ++ after))
      with (p ++ sep ++ str_join sep ((q :: rest) ++ after))%string.
    rewrite IH by done.
    change (str_join sep (p :: q :: rest))
      with (p ++ sep ++ str_join sep (q :: rest))%string.
    by rewrite !string_app_assoc.
Qed.

(** X5: [get_combined_markdown] joins the markdown of the pages with an
    empty line between two pages and nothing after the last one: no page
    gives the empty text, one page gives its markdown unchanged, and the
    text of a response cut in two is the two texts with an empty line
    between them. *)
Theorem get_combined_markdown_joins (ocr_response : OCRResponse) :
  (resp_pages ocr_response = [] -> get_combined_markdown ocr_response = "")
  /\
  (forall p : string,
     resp_pages ocr_response = [p] -> get_combined_markdown ocr_response = p)
  /\
  (forall before after : list string,
     before <> [] -> after <> [] ->
     resp_pages ocr_response = before ++ after ->
     get_combined_markdown ocr_response
     = (str_join blank_line before ++ blank_line
          ++ str_join blank_line after)%string).
Proof.
  unfold get_combined_markdown. split; [|split].
  - by intros ->.
  - by intros p ->.
  - intros before after Hb Ha ->. by apply str_join_app.
Qed.

Lemma get_combined_markdown_joins_witness :
  get_combined_markdown (mk_response ["a"; "b"; "c"] (Ret None))
  = (str_join blank_line ["a"] ++ blank_line
       ++ str_join blank_line ["b"; "c"])%string.
Proof.
  destruct (get_combined_markdown_joins
              (mk_response ["a"; "b"; "c"] (Ret None))) as (_ & _ & H).
  apply (H ["a"] ["b"; "c"]); done.
Defined.

Section ConvertMore.

Context {R : Type} (os : os_api) (client : client_api R).

(** X6: when the upload and the OCR call succeed, the output file can be
    written and the usage can be reported, [convert_pdf_to_markdown]
    returns the output path: the path given by the caller, or the path of
    the document with its extension replaced by [.md]; the file at this
    path holds the combined markdown of the response, and no other file
    is touched. *)
Theorem convert_pdf_success (pdf_path : string)
    (output_path : option string) (model : string) (s : env R)
    (url : string) (s1 : env R) (l1 : list event)
    (resp : OCRResponse) (s2 : env R) (l2 : list event) :
  is_Some (fs s !! pdf_path) ->
  upload_file_to_ocr_service os client pdf_path s = (Ret url, s1, l1) ->
  process_with_ocr client url model s1 = (Ret resp, s2, l2) ->
  default_md os pdf_path output_path ∉ denied s ->
  usage_failure resp = None ->
  exists (s' : env R) (log : list event),
    convert_pdf_to_markdown os client pdf_path output_path model s
      = (Ret (Some (default_md os pdf_path output_path)), s', log) /\
    default_md os pdf_path output_path
      = (if falsy output_path
         then (os_path_splitext os pdf_path).1 ++ ".md"
         else default "" output_path)%string /\
    fs s' = <[default_md os pdf_path output_path :=
               TextFile (get_combined_markdown resp)]> (fs s) /\
    written log
      = [(default_md os pdf_path output_path,
          TextFile (get_combined_markdown resp))] /\
    remote s' = remote s2.
Proof.
  intros Hf HU HP Hd Hu.
  destruct (quiet_upload os client pdf_path _ _ _ _ HU) as (F1 & D1 & W1).
  destruct (quiet_process_with_ocr client url model _ _ _ _ HP)
    as (F2 & D2 & W2).
  unfold convert_pdf_to_markdown, os_path_exists.
  unfold bind at 1. cbn. rewrite bool_decide_true by done. cbn.
  unfold try_except. unfold bind at 1. unfold attempt at 1. rewrite HU.
  unfold bind at 1. unfold attempt at 1. unfold bind at 1. unfold print at 1.
  unfold emit. rewrite HP.
  cbv zeta. unfold bind at 1. rewrite write_text_run.
  rewrite bool_decide_false by (rewrite D2, D1; exact Hd).
  unfold bind at 1. unfold print at 1. unfold emit. unfold bind at 1.
  match goal with
  | |- context [report_usage resp true ?s3] =>
      destruct (report_usage_run resp true s3) as (l3 & W3 & ->)
  end.
  rewrite Hu. run. do 2 eexists. split; [reflexivity|].
  split.
  { unfold default_md, falsy. destruct output_path as [p|]; [|done].
    by destruct (bool_decide (p = "")). }
  split; [cbn; congruence|]. split; [|done].
  simpl_written. done.
Qed.

(** X7: a conversion of a file that does not exist returns [None] and
    does nothing else than print a message: the service is not contacted
    and no file is written. *)
Theorem convert_missing_input (path : string)
    (output_path : option string) (model : string) (s : env R) :
  fs s !! path = None ->
  convert_pdf_to_markdown os client path output_path model s
    = (Ret None, s, [Printed (MsgNoSuchFile path)]) /\
  convert_image_to_markdown os client path output_path model s
    = (Ret None, s, [Printed (MsgNoSuchFile path)]).
Proof.
  intros Hf.
  unfold convert_pdf_to_markdown, convert_image_to_markdown, os_path_exists.
  unfold bind at 1. unfold bind at 2. cbn. rewrite Hf.
  rewrite bool_decide_false by (by intros [x Hx]). cbn. by run.
Qed.

End ConvertMore.

Lemma convert_pdf_success_witness :
  exists (s' : env nat) (log : list event),
    convert_pdf_to_markdown Stub.os Stub.good "a.pdf" (Some "out.md") "m"
      Stub.one_page
      = (Ret (Some (default_md Stub.os "a.pdf" (Some "out.md"))), s', log) /\
    default_md Stub.os "a.pdf" (Some "out.md")
      = (if falsy (Some "out.md")
         then (os_path_splitext Stub.os "a.pdf").1 ++ ".md"
         else default "" (Some "out.md"))%string /\
    fs s' = <[default_md Stub.os "a.pdf" (Some "out.md") :=
               TextFile (get_combined_markdown
                           (mk_response ["p1"; "p2"] (Ret Stub.usage)))]>
              (fs Stub.one_page) /\
    written log
      = [(default_md Stub.os "a.pdf" (Some "out.md"),
          TextFile (get_combined_markdown
                      (mk_response ["p1"; "p2"] (Ret Stub.usage))))] /\
    remote s' = 3%nat.
Proof.
  eapply (convert_pdf_success Stub.os Stub.good "a.pdf" (Some "out.md") "m"
            Stub.one_page "url" _ _
            (mk_response ["p1"; "p2"] (Ret Stub.usage))
            (mk_env 3%nat (fs Stub.one_page) (denied Stub.one_page))).
  - eexists. reflexivity.
  - reflexivity.
  - reflexivity.
  - apply not_elem_of_empty.
  - reflexivity.
Defined.

Lemma convert_missing_input_witness :
  convert_pdf_to_markdown Stub.os Stub.good "b.pdf" None "m" Stub.one_page
    = (Ret None, Stub.one_page, [Printed (MsgNoSuchFile "b.pdf")]) /\
  convert_image_to_markdown Stub.os Stub.good "b.pdf" None "m" Stub.one_page
    = (Ret None, Stub.one_page, [Printed (MsgNoSuchFile "b.pdf")]).
Proof.
  apply (convert_missing_input Stub.os Stub.good "b.pdf" None "m"
           Stub.one_page).
  reflexivity.
Defined.

(** ** Further properties of [split_pdf] *)

Section SplitMore.

Context {R : Type} (os : os_api).


Lemma chunks_of_one (pages : list page) :
  chunks_of pages 1 (length pages) = map (fun p => [p]) pages.
Proof.
  unfold chunks_of. apply list_eq. intros i.
  rewrite !list_lookup_fmap.
  destruct (decide (i < length pages)%nat) as [Hi|Hi].
  - rewrite lookup_seq_lt by done. cbn.
    destruct (lookup_lt_is_Some_2 pages i Hi) as [p Hp]. rewrite Hp. cbn.
    rewrite Nat.mul_1_r, (drop_S _ _ _ Hp). reflexivity.
  - rewrite lookup_seq_ge by lia. rewrite lookup_ge_None_2 by lia. done.
Qed.

(** X9: a negative [num_chunks] is accepted: [pages_per_chunk] is then
    [1] and every page of the document becomes a chunk of its own. *)
Theorem split_pdf_negative_num_chunks (pdf_path : string)
    (output_dir : option string) (num_chunks : Z) (s : env R)
    (pages : list page) :
  fs s !! pdf_path = Some (PdfFile pages) ->
  denied s = ∅ ->
  num_chunks < 0 ->
  exists (chunk_paths : list string) (s' : env R) (log : list event),
    split_pdf os pdf_path output_dir num_chunks s
      = (Ret chunk_paths, s', log) /\
    length chunk_paths = length pages /\
    written log = zip chunk_paths (map (fun p => PdfFile [p]) pages).
Proof.
  intros Hf Hd Hn.
  destruct (split_pdf_run os pdf_path output_dir num_chunks s pages Hf
              ltac:(lia) Hd) as (s' & Hrun & _).
  cbv zeta in Hrun.
  set (total := Z.of_nat (length pages)) in *.
  assert (Hq : Z.max 1 (- (- total / num_chunks)) = 1).
  { assert (0 <= - total / num_chunks); [|lia].
    rewrite <- (Z.opp_involutive num_chunks), Z.div_opp_opp by lia.
    apply Z.div_pos; lia. }
  rewrite Hq in Hrun. rewrite Z.div_1_r, Z.opp_involutive in Hrun.
  unfold total in Hrun. rewrite Nat2Z.id in Hrun.
  change (Z.to_nat 1) with 1%nat in Hrun.
  do 3 eexists. split; [exact Hrun|].
  split; [by rewrite length_map, length_seq|].
  change (?x :: ?l ++ ?l') with ([x] ++ l ++ l').
  rewrite !written_app, written_wrote, zip_fmap_pdf. cbn.
  rewrite app_nil_r. f_equal.
  fold (chunks_of pages 1 (length pages)). rewrite chunks_of_one.
  f_equal. clear. induction pages as [|p pages IH]; cbn; [done|].
  by f_equal.
Qed.

(** X10: [split_pdf] never makes more chunks than it was asked for (and
    it makes at least one for a document that has a page). *)
Theorem split_pdf_at_most_num_chunks (pdf_path : string)
    (output_dir : option string) (num_chunks : Z) (s : env R)
    (pages : list page) :
  fs s !! pdf_path = Some (PdfFile pages) ->
  denied s = ∅ ->
  (1 <= length pages)%nat ->
  1 <= num_chunks ->
  exists (chunk_paths : list string) (s' : env R) (log : list event),
    split_pdf os pdf_path output_dir num_chunks s
      = (Ret chunk_paths, s', log) /\
    1 <= Z.of_nat (length chunk_paths) <= num_chunks.
Proof.
  intros Hf Hd Hlen Hn.
  destruct (split_pdf_chunks os pdf_path output_dir num_chunks s pages
              Hf Hd Hlen Hn)
    as (p & k & paths & s' & log & Hrun & _ & Hk & _ & Hq & Hb & Hp & Hk1).
  exists paths, s', log. split; [done|]. rewrite Hk. split; [lia|].
  destruct k as [|k']; [lia|].
  replace (S k' - 1)%nat with k' in Hb by lia. nia.
Qed.

Lemma add_pages_state (pages : list page) (page_nums : list Z) :
  forall (pdf_writer : list page) (s : env R) r s' l,
    add_pages pages page_nums pdf_writer s = (r, s', l) -> s' = s.
Proof.
  induction page_nums as [|k rest IH]; intros pdf_writer s r s' l.
  - by intros [= _ <- _].
  - cbn [add_pages]. unfold bind, py_index. cbv zeta.
    destruct (if (if k <? 0 then k + Z.of_nat (length pages) else k) <? 0
              then None else _) as [p|].
    + unfold ret at 1.
      destruct (add_pages pages rest (pdf_writer ++ [p]) s)
        as [[r2 s2] l2] eqn:E.
      intros [= _ <- _]. by apply IH in E.
    + by intros [= _ <- _].
Qed.

Lemma split_loop_frame (pages : list page) (dir base : string)
    (pages_per_chunk total_pages : Z) (indices : list Z) :
  forall (chunk_paths : list string) (s : env R) r s' log,
    split_loop os pages dir base pages_per_chunk total_pages indices
      chunk_paths s = (r, s', log) ->
    remote s' = remote s /\ denied s' = denied s /\
    forall p : string,
      (forall i : Z, p <> chunk_file os dir base i) ->
      fs s' !! p = fs s !! p.
Proof.
  induction indices as [|i rest IH]; intros chunk_paths s r s' log.
  - by intros [= _ <- _].
  - cbn [split_loop]. unfold bind at 1.
    destruct (add_pages _ _ _ _) as [[[w|e] s1] l1] eqn:E1;
      apply add_pages_state in E1 as ->; [|by intros [= _ <- _]].
    unfold bind at 1. rewrite write_pdf_run.
    destruct (bool_decide _); [by intros [= _ <- _]|].
    destruct (split_loop _ _ _ _ _ _ _ _ _) as [[r2 s2] l2] eqn:E2.
    intros [= _ <- _]. apply IH in E2 as (Hr & Hd & Hfs).
    split; [done|]. split; [done|]. intros p Hp.
    rewrite Hfs by done. cbn. by rewrite lookup_insert_ne.
Qed.

(** X11: [split_pdf] touches nothing but its chunk files: however it
    ends, the service has not been contacted, and every file that is not
    named [<dir>/<base>_chunk_<n>.pdf] is as before. *)
Theorem split_pdf_writes_only_chunks (pdf_path : string)
    (output_dir : option string) (num_chunks : Z) (s : env R)
    (r : outcome (list string)) (s' : env R) (log : list event) :
  split_pdf os pdf_path output_dir num_chunks s = (r, s', log) ->
  remote s' = remote s /\
  forall p : string,
    (forall i : Z,
       p <> chunk_file os (split_dir os pdf_path output_dir)
              (split_base os pdf_path) i) ->
    fs s' !! p = fs s !! p.
Proof.
  unfold split_pdf. unfold bind at 1. unfold pdf_reader, read_bytes.
  unfold bind at 1.
  destruct (fs s !! pdf_path) as [[pages|text]|];
    [|by intros [= _ <- _]..].
  unfold ret at 1. unfold ret at 1. unfold bind at 1, ceil_div at 1.
  destruct (bool_decide (num_chunks = 0)); [by intros [= _ <- _]|].
  unfold ret at 1. unfold bind at 1, ceil_div at 1.
  destruct (bool_decide _); [by intros [= _ <- _]|].
  unfold ret at 1. unfold bind at 1, print at 1, emit. unfold bind at 1.
  assert (Hdir : match output_dir with
                 | Some d =>
                     if bool_decide (d = "")
                     then os_path_join os (os_path_dirname os pdf_path)
                            "split_pdfs"
                     else d
                 | None =>
                     os_path_join os (os_path_dirname os pdf_path)
                       "split_pdfs"
                 end = split_dir os pdf_path output_dir).
  { unfold split_dir, falsy.
    destruct output_dir as [d|]; [destruct (bool_decide (d = ""))|]; done. }
  rewrite !Hdir. fold (split_base os pdf_path).
  destruct (split_loop _ _ _ _ _ _ _ _ _) as [[[paths|e] s1] l1] eqn:E;
    apply split_loop_frame in E as (Hr & _ & Hfs); run;
    intros [= _ <- _]; done.
Qed.

End SplitMore.


Lemma split_pdf_negative_num_chunks_witness :
  exists (chunk_paths : list string) (s' : env nat) (log : list event),
    split_pdf Stub.os "a.pdf" None (-3) Stub.five_pages
      = (Ret chunk_paths, s', log) /\
    length chunk_paths = 5%nat /\
    written log
    = zip chunk_paths
        (map (fun p => PdfFile [p]) ["1"; "2"; "3"; "4"; "5"]).
Proof.
  apply (split_pdf_negative_num_chunks Stub.os "a.pdf" None (-3)
           Stub.five_pages ["1"; "2"; "3"; "4"; "5"]).
  - reflexivity.
  - reflexivity.
  - lia.
Defined.

Lemma split_pdf_at_most_num_chunks_witness :
  exists (chunk_paths : list string) (s' : env nat) (log : list event),
    split_pdf Stub.os "a.pdf" None 4 Stub.five_pages
      = (Ret chunk_paths, s', log) /\
    1 <= Z.of_nat (length chunk_paths) <= 4.
Proof.
  apply (split_pdf_at_most_num_chunks Stub.os "a.pdf" None 4
           Stub.five_pages ["1"; "2"; "3"; "4"; "5"]).
  - reflexivity.
  - reflexivity.
  - cbn. lia.
  - lia.
Defined.

Lemma split_pdf_writes_only_chunks_witness :
  remote (split_pdf Stub.os "a.pdf" None 2 Stub.five_pages).1.2 = 0%nat /\
  forall p : string,
    (forall i : Z,
       p <> chunk_file Stub.os (split_dir Stub.os "a.pdf" None)
              (split_base Stub.os "a.pdf") i) ->
    fs (split_pdf Stub.os "a.pdf" None 2 Stub.five_pages).1.2 !! p
    = fs Stub.five_pages !! p.
Proof.
  apply (split_pdf_writes_only_chunks Stub.os "a.pdf" None 2
           Stub.five_pages
           (split_pdf Stub.os "a.pdf" None 2 Stub.five_pages).1.1
           (split_pdf Stub.os "a.pdf" None 2 Stub.five_pages).1.2
           (split_pdf Stub.os "a.pdf" None 2 Stub.five_pages).2).
  by destruct (split_pdf Stub.os "a.pdf" None 2 Stub.five_pages)
    as [[r s'] log].
Defined.

(** ** Further properties of the chunked pipeline *)

Section ChunkedMore.

Context {R : Type} (os : os_api).
Variable convert : string -> option string -> string -> M R (option string).

Lemma chunk_retry_loop_gives_up (i : Z) (chunk_path : string)
    (chunk_output_path : option string) (model : string)
    (chunk_outputs : list string) (failed_chunks : list Z) (s : env R) :
  never_converts convert ->
  exists (s' : env R) (log : list event),
    chunk_retry_loop convert i chunk_path chunk_output_path model
      (py_range (max_chunk_retries + 1)) chunk_outputs failed_chunks s
    = (Ret (chunk_outputs, failed_chunks ++ [i + 1]), s', log) /\
    timeline log = chunk_schedule (i + 1) 3.
Proof.
  intros Hnever.
  change (py_range (max_chunk_retries + 1)) with [0; 1; 2].
  assert (Hno : forall p (s0 s1 : env R) l,
            convert chunk_path chunk_output_path model s0
              = (Ret (Some p), s1, l) ->
            bool_decide (p = "") = true).
  { intros p s0 s1 l E.
    pose proof (Hnever chunk_path chunk_output_path model s0) as H.
    by rewrite E in H. }
  do 3 (rewrite chunk_retry_loop_cons;
        match goal with
        | |- context [convert ?a ?b ?c ?s0] =>
            let E := fresh "E" in
            destruct (convert a b c s0) as [[[[?|]|?] ?] ?] eqn:E;
            cbv zeta beta iota;
            [rewrite (Hno _ _ _ _ E) | | ];
            rewrite ?after_failure_run;
            change (0 <? max_chunk_retries) with true;
            change (1 <? max_chunk_retries) with true;
            change (2 <? max_chunk_retries) with false;
            cbv beta iota
        end).
  all: cbn [chunk_retry_loop]; unfold ret; do 2 eexists;
    split; reflexivity.
Qed.

Lemma chunk_loop_all_fail (output_path : option string) (model : string)
    (total : nat) (chunk_paths : list string) :
  never_converts convert ->
  forall (i : Z) (chunk_outputs : list string) (failed_chunks : list Z)
         (s : env R),
  exists (s' : env R) (log : list event),
    chunk_loop os convert output_path model total i chunk_paths
      chunk_outputs failed_chunks s
    = (Ret (chunk_outputs,
            failed_chunks
              ++ map (fun j => i + 1 + Z.of_nat j)
                   (seq 0 (length chunk_paths))), s', log) /\
    timeline log
    = schedule_of i (replicate (length chunk_paths) GaveUp).
Proof.
  intros Hnever.
  induction chunk_paths as [|chunk_path rest IH];
    intros i chunk_outputs failed_chunks s.
  - exists s, []. cbn. unfold ret. by rewrite !app_nil_r.
  - cbn [chunk_loop]. unfold bind at 1, print at 1, emit.
    unfold bind at 1.
    match goal with
    | |- context [chunk_retry_loop convert i chunk_path ?cop model _ _ _ s] =>
        destruct (chunk_retry_loop_gives_up i chunk_path cop model
                    chunk_outputs failed_chunks s Hnever)
          as (s1 & l1 & -> & Ht)
    end.
    cbn [fst snd].
    destruct (IH (i + 1) chunk_outputs (failed_chunks ++ [i + 1]) s1)
      as (s' & log & -> & Htl).
    assert (Hl : map (fun j => i + 1 + Z.of_nat j)
                   (seq 0 (length (chunk_path :: rest)))
                 = (i + 1) :: map (fun j => i + 1 + 1 + Z.of_nat j)
                                (seq 0 (length rest))).
    { cbn [length seq map]. rewrite <- seq_shift, map_map.
      f_equal; [lia|]. apply map_ext. intros j. lia. }
    exists s'. eexists. split.
    + rewrite Hl, <- !app_assoc. reflexivity.
    + cbn [app timeline schedule_of length replicate attempts_of].
      by rewrite timeline_app, Ht, Htl.
Qed.

(** X12: when the conversion of every chunk fails at every attempt, each
    chunk is attempted three times with sleeps of [2] and [4] seconds,
    every ordinal [1, ..., n] is recorded as failed in this order, no
    output is kept, and the pipeline returns no output after the message
    that all chunks failed. *)
Theorem pipeline_all_chunks_fail (pdf_path : string)
    (output_path : option string) (num_chunks : Z) (model : string)
    (s : env R) (chunk_paths : list string) (s1 : env R)
    (l1 : list event) :
  never_converts convert ->
  split_pdf os pdf_path None num_chunks s = (Ret chunk_paths, s1, l1) ->
  (exists (s' : env R) (log : list event),
     chunk_loop os convert output_path model (length chunk_paths) 0
       chunk_paths [] [] s1
     = (Ret ([], map (fun j => Z.of_nat (S j)) (seq 0 (length chunk_paths))),
        s', log) /\
     timeline log = schedule_of 0 (replicate (length chunk_paths) GaveUp) /\
     process_pdf_in_chunks_with os convert pdf_path output_path num_chunks
       model s
     = (Ret NoOutput, s', l1 ++ log ++ [Printed MsgAllChunksFailed])).
Proof.
  intros Hnever Hsplit.
  destruct (chunk_loop_all_fail output_path model (length chunk_paths)
              chunk_paths Hnever 0 [] [] s1) as (s' & log & Hrun & Htl).
  assert (Hord : map (fun j => 0 + 1 + Z.of_nat j)
                   (seq 0 (length chunk_paths))
                 = map (fun j => Z.of_nat (S j))
                     (seq 0 (length chunk_paths)))
    by (apply map_ext; intros j; lia).
  cbn [app] in Hrun. rewrite Hord in Hrun.
  exists s', log. split; [exact Hrun|]. split; [exact Htl|].
  unfold process_pdf_in_chunks_with. unfold bind at 1, attempt.
  rewrite Hsplit. unfold bind at 1. rewrite Hrun. cbn [fst snd].
  unfold finish. rewrite andb_false_r. run. cbn. reflexivity.
Qed.

Lemma chunk_loop_all_succeed (output_path : option string) (model : string)
    (total : nat) (chunk_paths : list string) :
  always_converts convert ->
  forall (i : Z) (chunk_outputs : list string) (failed_chunks : list Z)
         (s : env R),
  exists (results : list string) (s' : env R) (log : list event),
    chunk_loop os convert output_path model total i chunk_paths
      chunk_outputs failed_chunks s
    = (Ret (chunk_outputs ++ results, failed_chunks), s', log) /\
    length results = length chunk_paths /\
    timeline log
    = map (fun j => Called (Attempt (i + 1 + Z.of_nat j) 0))
        (seq 0 (length chunk_paths)).
Proof.
  intros Halways.
  induction chunk_paths as [|chunk_path rest IH];
    intros i chunk_outputs failed_chunks s.
  - exists [], s, []. cbn. unfold ret. by rewrite !app_nil_r.
  - cbn [chunk_loop]. unfold bind at 1, print at 1, emit.
    unfold bind at 1.
    change (py_range (max_chunk_retries + 1)) with [0; 1; 2].
    rewrite chunk_retry_loop_cons.
    match goal with
    | |- context [convert ?a ?b ?c ?s0] =>
        destruct (Halways a b c s0) as (q & s1 & l1 & -> & Hq)
    end.
    cbv zeta beta iota. rewrite (bool_decide_false _ Hq). cbn [fst snd].
    destruct (IH (i + 1) (chunk_outputs ++ [q]) failed_chunks s1)
      as (results & s' & log & -> & Hlen & Htl).
    exists (q :: results), s'. eexists. split; [|split].
    + by rewrite <- !app_assoc.
    + cbn. by rewrite Hlen.
    + cbn [app timeline length seq map]. rewrite Htl.
      rewrite <- seq_shift, map_map.
      f_equal; [do 2 f_equal; lia|].
      apply map_ext. intros j. do 2 f_equal. lia.
Qed.

(** X13: when the conversion of every chunk succeeds at once, each chunk
    is attempted exactly once, in the order of the ordinals and without
    any sleep; there is one output per chunk and no failed ordinal. *)
Theorem chunk_loop_no_retry_on_success (output_path : option string)
    (model : string) (chunk_paths : list string) (s : env R) :
  always_converts convert ->
  exists (chunk_outputs : list string) (s' : env R) (log : list event),
    chunk_loop os convert output_path model (length chunk_paths) 0
      chunk_paths [] [] s
    = (Ret (chunk_outputs, []), s', log) /\
    length chunk_outputs = length chunk_paths /\
    timeline log
    = map (fun j => Called (Attempt (Z.of_nat (S j)) 0))
        (seq 0 (length chunk_paths)) /\
    sleeps log = [].
Proof.
  intros Halways.
  destruct (chunk_loop_all_succeed output_path model (length chunk_paths)
              chunk_paths Halways 0 [] [] s)
    as (results & s' & log & Hrun & Hlen & Htl).
  exists results, s', log. split; [exact Hrun|]. split; [exact Hlen|].
  assert (Htl' : timeline log
                 = map (fun j => Called (Attempt (Z.of_nat (S j)) 0))
                     (seq 0 (length chunk_paths))).
  { rewrite Htl. apply map_ext. intros j. do 2 f_equal. lia. }
  split; [exact Htl'|].
  rewrite sleeps_timeline, Htl'.
  generalize (seq 0 (length chunk_paths)) as js.
  induction js as [|j js IH]; [done|]. exact IH.
Qed.

End ChunkedMore.

Section PipelineEdges.

Context {R : Type} (os : os_api) (client : client_api R).




(** X16: the merge is not protected by any handler: when some chunk
    succeeded and the output path cannot be opened for writing, the
    [PermissionError] leaves [process_pdf_in_chunks] as an exception. *)
Theorem finish_merge_error_propagates (p : string)
    (chunk_outputs : list string) (failed_chunks : list Z) (s : env R) :
  p <> "" ->
  chunk_outputs <> [] ->
  p ∈ denied s ->
  finish (Some p) chunk_outputs failed_chunks s
  = (Raise (mk_exn PermissionError 0 None), s,
     [Printed (MsgCombining (length chunk_outputs) p)]).
Proof.
  intros Hp Hne Hd. unfold finish, falsy.
  rewrite (bool_decide_false _ Hp), (bool_decide_false _ Hne).
  cbn [negb andb default]. change (id p) with p.
  unfold bind at 1, print at 1, emit. unfold bind at 1.
  unfold combine. unfold bind at 1, open_w.
  rewrite bool_decide_true by done. reflexivity.
Qed.

End PipelineEdges.

Lemma failing_converter_never_converts :
  never_converts Stub2.failing_converter.
Proof. intros path output_path model s. reflexivity. Qed.

Lemma naming_converter_always_converts :
  always_converts Stub2.naming_converter.
Proof.
  intros path output_path model s. do 3 eexists. split; [reflexivity|].
  discriminate.
Qed.

Lemma pipeline_all_chunks_fail_witness :
  exists (s' : env nat) (log : list event),
    process_pdf_in_chunks_with Stub.os Stub2.failing_converter "a.pdf" None 2
      "m" Stub.five_pages
    = (Ret NoOutput, s', log).
Proof.
  edestruct (pipeline_all_chunks_fail Stub.os Stub2.failing_converter
               "a.pdf" None 2 "m" Stub.five_pages)
    as (s' & log & _ & _ & H).
  - exact failing_converter_never_converts.
  - reflexivity.
  - eauto.
Defined.

Lemma chunk_loop_no_retry_on_success_witness :
  exists (chunk_outputs : list string) (s' : env nat) (log : list event),
    chunk_loop Stub.os Stub2.naming_converter None "m" 2 0 ["c1"; "c2"]
      [] [] Stub.one_page
    = (Ret (chunk_outputs, []), s', log) /\
    length chunk_outputs = 2%nat /\
    timeline log
    = map (fun j => Called (Attempt (Z.of_nat (S j)) 0)) (seq 0 2) /\
    sleeps log = [].
Proof.
  apply (chunk_loop_no_retry_on_success Stub.os Stub2.naming_converter None
           "m" ["c1"; "c2"] Stub.one_page).
  exact naming_converter_always_converts.
Defined.



Lemma finish_merge_error_propagates_witness :
  finish (Some "out.md") ["c1.md"] [] Stub2.protected
  = (Raise (mk_exn PermissionError 0 None), Stub2.protected,
     [Printed (MsgCombining 1 "out.md")]).
Proof.
  apply (finish_merge_error_propagates "out.md" ["c1.md"] []
           Stub2.protected).
  - discriminate.
  - discriminate.
  - apply elem_of_singleton. reflexivity.
Defined.

(** ** Further properties: image conversion, accounting of the chunks *)

Section ImageMore.

Context {R : Type} (os : os_api) (client : client_api R).

(** X17: when the image exists, the OCR call on the data URL of its
    content succeeds, the output path can be written and the usage can be
    reported, [convert_image_to_markdown] returns the output path: the
    path given by the caller, or the path of the image with its extension
    replaced by [.md]; the file at this path holds the combined markdown
    of the response and no other file is written. *)
Theorem convert_image_success (image_path : string)
    (output_path : option string) (model : string) (s : env R)
    (content : file) (resp : OCRResponse) (s2 : env R) (l2 : list event) :
  fs s !! image_path = Some content ->
  process_image_with_ocr client (data_url os content) model s
    = (Ret resp, s2, l2) ->
  default_md os image_path output_path ∉ denied s ->
  usage_failure resp = None ->
  exists (s' : env R) (log : list event),
    convert_image_to_markdown os client image_path output_path model s
      = (Ret (Some (default_md os image_path output_path)), s', log) /\
    default_md os image_path output_path
      = (if falsy output_path
         then (os_path_splitext os image_path).1 ++ ".md"
         else default "" output_path)%string /\
    fs s' = <[default_md os image_path output_path :=
               TextFile (get_combined_markdown resp)]> (fs s) /\
    written log
      = [(default_md os image_path output_path,
          TextFile (get_combined_markdown resp))] /\
    remote s' = remote s2.
Proof.
  intros Hf HP Hd Hu.
  destruct (quiet_process_image_with_ocr client _ model _ _ _ _ HP)
    as (F2 & D2 & W2).
  unfold convert_image_to_markdown, os_path_exists.
  unfold bind at 1. cbn. rewrite bool_decide_true by (by rewrite Hf). cbn.
  unfold try_except. unfold bind at 1. unfold print at 1. unfold emit.
  unfold bind at 1. unfold read_bytes at 1. rewrite Hf.
  unfold bind at 1. unfold attempt at 1. rewrite HP.
  cbv zeta. unfold bind at 1. rewrite write_text_run.
  rewrite bool_decide_false by (rewrite D2; exact Hd).
  unfold bind at 1. unfold print at 1. unfold emit. unfold bind at 1.
  match goal with
  | |- context [report_usage resp false ?s3] =>
      destruct (report_usage_run resp false s3) as (l3 & W3 & ->)
  end.
  rewrite Hu. run. do 2 eexists. split; [reflexivity|].
  split.
  { unfold default_md, falsy. destruct output_path as [p|]; [|done].
    by destruct (bool_decide (p = "")). }
  split; [cbn; congruence|]. split; [|done].
  simpl_written. done.
Qed.

Lemma default_md_not_empty (src : string) (output_path : option string) :
  default_md os src output_path <> "".
Proof.
  unfold default_md.
  assert (H : forall x : string, (x ++ ".md")%string <> "")
    by (intros [|a x]; discriminate).
  destruct output_path as [p|]; [|apply H].
  destruct (decide (p = "")) as [->|Hp].
  - rewrite bool_decide_true by done. apply H.
  - by rewrite bool_decide_false.
Qed.

(** X18: a conversion function returns, and a path that it returns is
    never the empty string, also when the caller gives the empty string
    as output path: the test [if result_path] of the callers is true
    exactly when the conversion returned a path. *)
Theorem conversion_result_is_truthy (path : string)
    (output_path : option string) (model : string) (s : env R) :
  (exists r s' log,
     convert_pdf_to_markdown os client path output_path model s
       = (Ret r, s', log) /\
     falsy r = bool_decide (r = None)) /\
  (exists r s' log,
     convert_image_to_markdown os client path output_path model s
       = (Ret r, s', log) /\
     falsy r = bool_decide (r = None)).
Proof.
  split.
  - destruct (convert_pdf_cases os client path output_path model s)
      as (r & s' & log & Hrun & Hr).
    exists r, s', log. split; [exact Hrun|].
    destruct r as [p|]; [|done]. destruct Hr as [-> _]. unfold falsy.
    rewrite (bool_decide_false (default_md _ _ _ = ""))
      by apply default_md_not_empty.
    by rewrite bool_decide_false.
  - destruct (convert_image_cases os client path output_path model s)
      as (r & s' & log & Hrun & Hr).
    exists r, s', log. split; [exact Hrun|].
    destruct r as [p|]; [|done]. destruct Hr as [-> _]. unfold falsy.
    rewrite (bool_decide_false (default_md _ _ _ = ""))
      by apply default_md_not_empty.
    by rewrite bool_decide_false.
Qed.

End ImageMore.

Section Accounting.

Context {R : Type} (os : os_api).
Variable convert : string -> option string -> string -> M R (option string).

Lemma failed_of_ascending (runs : list chunk_run) :
  forall i : Z,
    ascending_from i (failed_of i runs) /\
    Forall (fun x => i < x <= i + Z.of_nat (length runs)) (failed_of i runs).
Proof.
  induction runs as [|c runs IH]; intros i; [done|].
  destruct (IH (i + 1)) as [Ha Hb].
  assert (Hb' : Forall (fun x => i < x <= i + Z.of_nat (length (c :: runs)))
                  (failed_of (i + 1) runs)).
  { eapply Forall_impl; [exact Hb|]. intros x Hx.
    cbn beta in Hx |- *. cbn [length]. lia. }
  assert (Ha' : ascending_from i (failed_of (i + 1) runs)).
  { destruct (failed_of (i + 1) runs) as [|x l]; [done|].
    destruct Ha as [Hx Hl]. split; [lia|done]. }
  destruct c as [k p|]; cbn [failed_of].
  - done.
  - split; [split; [lia|done]|].
    constructor; [cbn [length]; lia|done].
Qed.

Lemma outputs_failed_length (runs : list chunk_run) (i : Z) :
  (length (outputs_of runs) + length (failed_of i runs))%nat = length runs.
Proof.
  revert i. induction runs as [|[k p|] runs IH]; intros i; cbn; [done|..];
    rewrite <- (IH (i + 1)); lia.
Qed.

(** X19: whatever the converter does, the loop over the chunks accounts
    for every chunk exactly once: the outputs and the failed ordinals
    together are as many as the chunks, and the failed ordinals are in
    strictly ascending order, between [1] and the number of chunks. *)
Theorem chunk_loop_accounts_for_every_chunk
    (output_path : option string) (model : string)
    (chunk_paths : list string) (s : env R) :
  exists (chunk_outputs : list string) (failed_chunks : list Z)
         (s' : env R) (log : list event),
    chunk_loop os convert output_path model (length chunk_paths) 0
      chunk_paths [] [] s
    = (Ret (chunk_outputs, failed_chunks), s', log) /\
    (length chunk_outputs + length failed_chunks)%nat
      = length chunk_paths /\
    ascending_from 0 failed_chunks /\
    Forall (fun x => 1 <= x <= Z.of_nat (length chunk_paths)) failed_chunks.
Proof.
  destruct (chunk_loop_run os convert output_path model (length chunk_paths)
              chunk_paths 0 [] [] s)
    as (runs & s' & log & Hrun & Hlen & _ & _).
  exists (outputs_of runs), (failed_of 0 runs), s', log.
  split; [exact Hrun|].
  split; [by rewrite outputs_failed_length|].
  destruct (failed_of_ascending runs 0) as [Ha Hb].
  split; [exact Ha|].
  eapply Forall_impl; [exact Hb|]. intros x Hx. cbn beta in Hx. lia.
Qed.

Lemma chunk_retry_loop_outcomes (i : Z) (chunk_path : string)
    (chunk_output_path : option string) (model : string)
    (retries : list Z) :
  (forall p o m (s : env R) e s' l, convert p o m s <> (Raise e, s', l)) ->
  forall (chunk_outputs : list string) (failed_chunks : list Z) (s : env R),
    Forall (fun r => r = None)
      (call_outcomes
         (chunk_retry_loop convert i chunk_path chunk_output_path model
            retries chunk_outputs failed_chunks s).2).
Proof.
  intros Hno. induction retries as [|retry rest IH];
    intros chunk_outputs failed_chunks s; [constructor|].
  rewrite chunk_retry_loop_cons.
  destruct (convert chunk_path chunk_output_path model s)
    as [[[[p|]|e] s1] l1] eqn:E; [| |by apply Hno in E];
    cbv zeta beta iota.
  - destruct (bool_decide (p = "")); [|by repeat constructor].
    rewrite after_failure_run.
    match goal with
    | |- context [chunk_retry_loop convert i chunk_path chunk_output_path
                    model rest ?a ?b ?c] =>
        specialize (IH a b c);
        destruct (chunk_retry_loop convert i chunk_path chunk_output_path
                    model rest a b c) as [[r3 s3] l3]
    end.
    destruct (retry <? max_chunk_retries); cbn; constructor; done.
  - rewrite after_failure_run.
    match goal with
    | |- context [chunk_retry_loop convert i chunk_path chunk_output_path
                    model rest ?a ?b ?c] =>
        specialize (IH a b c);
        destruct (chunk_retry_loop convert i chunk_path chunk_output_path
                    model rest a b c) as [[r3 s3] l3]
    end.
    destruct (retry <? max_chunk_retries); cbn; constructor; done.
Qed.

Lemma call_outcomes_app (l1 l2 : list event) :
  call_outcomes (l1 ++ l2) = call_outcomes l1 ++ call_outcomes l2.
Proof.
  induction l1 as [|[m|d|p x|l inner raised] l1 IH]; cbn; congruence.
Qed.

Lemma chunk_loop_outcomes (output_path : option string) (model : string)
    (total : nat) (chunk_paths : list string) :
  (forall p o m (s : env R) e s' l, convert p o m s <> (Raise e, s', l)) ->
  forall (i : Z) (chunk_outputs : list string) (failed_chunks : list Z)
         (s : env R),
    Forall (fun r => r = None)
      (call_outcomes
         (chunk_loop os convert output_path model total i chunk_paths
            chunk_outputs failed_chunks s).2).
Proof.
  intros Hno. induction chunk_paths as [|chunk_path rest IH];
    intros i chunk_outputs failed_chunks s; [constructor|].
  cbn [chunk_loop]. unfold bind at 1, print at 1, emit. unfold bind at 1.
  match goal with
  | |- context [chunk_retry_loop convert i chunk_path ?cop model ?rs _ _ s] =>
      pose proof (chunk_retry_loop_outcomes i chunk_path cop model rs Hno
                    chunk_outputs failed_chunks s) as H1;
      destruct (chunk_retry_loop_run convert i chunk_path cop model
                  chunk_outputs failed_chunks s) as (c & s1 & l1 & E & _)
  end.
  rewrite E in H1 |- *. cbn [snd] in H1. cbn [fst snd].
  match goal with
  | |- context [chunk_loop os convert output_path model total (i + 1) rest
                  ?a ?b s1] =>
      specialize (IH (i + 1) a b s1);
      destruct (chunk_loop os convert output_path model total (i + 1) rest
                  a b s1) as [[r2 s2] l2]
  end.
  cbn [snd app call_outcomes] in IH |- *.
  rewrite call_outcomes_app. by apply Forall_app.
Qed.

End Accounting.

(** ** The pipeline with the converter of the program *)

Section EndToEnd.

Context {R : Type} (os : os_api) (client : client_api R).

(** X20: in the pipeline the converter is [convert_pdf_to_markdown],
    which returns [None] on an error: no attempt on a chunk ends with an
    exception, and there is an attempt for every chunk. *)
Theorem chunk_attempts_never_raise (output_path : option string)
    (model : string) (chunk_paths : list string) (s : env R) :
  Forall (fun r => r = None)
    (call_outcomes
       (chunk_loop os (convert_pdf_to_markdown os client) output_path model
          (length chunk_paths) 0 chunk_paths [] [] s).2).
Proof.
  apply chunk_loop_outcomes.
  intros p o m s0 e s1 l E.
  destruct (convert_pdf_cases os client p o m s0) as (r & s2 & l2 & E2 & _).
  congruence.
Qed.

(** What a conversion does to the disk: nothing, or one text file at the
    output path; the permissions stay. *)
Lemma convert_pdf_disk (pdf_path : string) (output_path : option string)
    (model : string) (s : env R) :
  exists r s' log,
    convert_pdf_to_markdown os client pdf_path output_path model s
      = (Ret r, s', log) /\
    denied s' = denied s /\
    (fs s' = fs s \/
     exists text,
       fs s' = <[default_md os pdf_path output_path := TextFile text]> (fs s))
    /\
    (forall p, r = Some p ->
       exists text, fs s' !! p = Some (TextFile text)).
Proof.
  unfold convert_pdf_to_markdown, os_path_exists.
  unfold bind at 1. cbn.
  destruct (bool_decide (is_Some (fs s !! pdf_path))); cbn.
  2:{ do 3 eexists. split; [reflexivity|]. split; [done|].
      split; [by left|]. intros p [=]. }
  unfold try_except. unfold bind at 1. unfold attempt at 1.
  destruct (upload_file_to_ocr_service os client pdf_path s)
    as [[[url|e] s1] l1] eqn:EU;
    destruct (quiet_upload os client pdf_path _ _ _ _ EU) as (F1 & D1 & W1).
  2:{ run. do 3 eexists. split; [reflexivity|]. split; [done|].
      split; [by left|]. intros p [=]. }
  unfold bind at 1. unfold attempt at 1. unfold bind at 1. unfold print at 1.
  unfold emit.
  destruct (process_with_ocr client url model s1)
    as [[[resp|e] s2] l2] eqn:EP;
    destruct (quiet_process_with_ocr client url model _ _ _ _ EP)
      as (F2 & D2 & W2).
  2:{ run. do 3 eexists. split; [reflexivity|]. split; [congruence|].
      split; [left; congruence|]. intros p [=]. }
  cbv zeta. unfold bind at 1. rewrite write_text_run.
  destruct (bool_decide (default_md os pdf_path output_path ∈ denied s2)).
  { run. do 3 eexists. split; [reflexivity|]. split; [congruence|].
    split; [left; congruence|]. intros p [=]. }
  unfold bind at 1. unfold print at 1. unfold emit. unfold bind at 1.
  match goal with
  | |- context [report_usage resp true ?s3] =>
      destruct (report_usage_run resp true s3) as (l3 & W3 & ->)
  end.
  destruct (usage_failure resp) as [e|] eqn:EF.
  - run. do 3 eexists. split; [reflexivity|]. cbn [fs denied].
    split; [congruence|]. split; [|intros p [=]].
    right. eexists. by rewrite F2, F1.
  - run. do 3 eexists. split; [reflexivity|]. cbn [fs denied].
    split; [congruence|]. split.
    + right. eexists. by rewrite F2, F1.
    + intros p [= <-]. eexists. apply lookup_insert_eq.
Qed.

Lemma text_files_kept (s s' : env R) (q : string) (paths : list string) :
  (fs s' = fs s \/ exists text, fs s' = <[q := TextFile text]> (fs s)) ->
  text_files s paths -> text_files s' paths.
Proof.
  intros Hfs Hp. eapply Forall_impl; [exact Hp|]. intros p [c Hc].
  destruct Hfs as [->|[text ->]]; [by exists c|].
  destruct (decide (q = p)) as [->|Hne].
  - exists text. apply lookup_insert_eq.
  - exists c. by rewrite lookup_insert_ne.
Qed.

Lemma chunk_retry_loop_disk (i : Z) (chunk_path : string)
    (chunk_output_path : option string) (model : string)
    (retries : list Z) :
  forall (chunk_outputs : list string) (failed_chunks : list Z) (s : env R),
    text_files s chunk_outputs ->
    exists outs failed s' log,
      chunk_retry_loop (convert_pdf_to_markdown os client) i chunk_path
        chunk_output_path model retries chunk_outputs failed_chunks s
      = (Ret (outs, failed), s', log) /\
      denied s' = denied s /\
      text_files s' outs /\
      (chunk_outputs <> [] -> outs <> []).
Proof.
  induction retries as [|retry rest IH];
    intros chunk_outputs failed_chunks s Ht.
  - by exists chunk_outputs, failed_chunks, s, [].
  - rewrite chunk_retry_loop_cons.
    destruct (convert_pdf_disk chunk_path chunk_output_path model s)
      as (r & s1 & l1 & -> & Hd & Hfs & Hr).
    pose proof (text_files_kept s s1 _ chunk_outputs Hfs Ht) as Ht1.
    cbv zeta.
    destruct r as [p|].
    + destruct (bool_decide (p = "")).
      * rewrite after_failure_run.
        match goal with
        | |- context [chunk_retry_loop _ i chunk_path chunk_output_path
                        model rest chunk_outputs ?b s1] =>
            destruct (IH chunk_outputs b s1 Ht1)
              as (outs & failed & s' & log & -> & Hd' & Ht' & Hne)
        end.
        destruct (retry <? max_chunk_retries);
          do 4 eexists; (split; [reflexivity|]);
          (split; [congruence|]); done.
      * do 4 eexists. split; [reflexivity|]. split; [done|].
        split; [|intros _; by destruct chunk_outputs].
        apply Forall_app. split; [done|].
        constructor; [|constructor]. by apply Hr.
    + rewrite after_failure_run.
      match goal with
      | |- context [chunk_retry_loop _ i chunk_path chunk_output_path
                      model rest chunk_outputs ?b s1] =>
          destruct (IH chunk_outputs b s1 Ht1)
            as (outs & failed & s' & log & -> & Hd' & Ht' & Hne)
      end.
      destruct (retry <? max_chunk_retries);
        do 4 eexists; (split; [reflexivity|]);
        (split; [congruence|]); done.
Qed.

Lemma chunk_loop_disk (output_path : option string) (model : string)
    (total : nat) (chunk_paths : list string) :
  forall (i : Z) (chunk_outputs : list string) (failed_chunks : list Z)
         (s : env R),
    text_files s chunk_outputs ->
    exists outs failed s' log,
      chunk_loop os (convert_pdf_to_markdown os client) output_path model
        total i chunk_paths chunk_outputs failed_chunks s
      = (Ret (outs, failed), s', log) /\
      denied s' = denied s /\
      text_files s' outs.
Proof.
  induction chunk_paths as [|chunk_path rest IH];
    intros i chunk_outputs failed_chunks s Ht.
  - by exists chunk_outputs, failed_chunks, s, [].
  - cbn [chunk_loop]. unfold bind at 1, print at 1, emit. unfold bind at 1.
    match goal with
    | |- context [chunk_retry_loop _ i chunk_path ?cop model ?rs _ _ s] =>
        destruct (chunk_retry_loop_disk i chunk_path cop model rs
                    chunk_outputs failed_chunks s Ht)
          as (outs & failed & s1 & l1 & -> & Hd & Ht1 & _)
    end.
    cbn [fst snd].
    destruct (IH (i + 1) outs failed s1 Ht1)
      as (outs' & failed' & s' & log & -> & Hd' & Ht').
    do 4 eexists. split; [reflexivity|]. split; [congruence|done].
Qed.

(** The merge returns as soon as the output can be opened and the chunk
    outputs are text files, also when one of them is the output itself. *)
Lemma combine_loop_returns (output_path : string)
    (chunk_outputs : list string) :
  forall s : env R,
    (exists c, fs s !! output_path = Some (TextFile c)) ->
    text_files s chunk_outputs ->
    exists s' log,
      combine_loop output_path chunk_outputs s = (Ret tt, s', log) /\
      denied s' = denied s /\
      exists c, fs s' !! output_path = Some (TextFile c).
Proof.
  induction chunk_outputs as [|q rest IH]; intros s Hout Ht.
  - by exists s, [].
  - apply Forall_cons in Ht as [[c Hq] Ht]. destruct Hout as [o Ho].
    cbn [combine_loop]. unfold read_text, read_bytes, append_text. run.
    rewrite Hq. cbn. rewrite Ho. cbn. rewrite lookup_insert_eq. cbn.
    match goal with
    | |- context [combine_loop output_path rest ?s2] =>
        destruct (IH s2) as (s' & log & -> & Hd & Hc)
    end.
    + cbn. eexists. apply lookup_insert_eq.
    + cbn. eapply Forall_impl; [exact Ht|]. intros p [cp Hp].
      destruct (decide (output_path = p)) as [<-|Hne].
      * eexists. apply lookup_insert_eq.
      * exists cp. cbn [fs]. by rewrite !lookup_insert_ne.
    + do 2 eexists. split; [reflexivity|]. split; [exact Hd|exact Hc].
Qed.

Lemma combine_returns (output_path : string) (chunk_outputs : list string)
    (s : env R) :
  output_path ∉ denied s ->
  text_files s chunk_outputs ->
  exists s' log,
    combine output_path chunk_outputs s = (Ret tt, s', log) /\
    exists c, fs s' !! output_path = Some (TextFile c).
Proof.
  intros Hd Ht. unfold combine. unfold bind at 1, open_w.
  rewrite bool_decide_false by done. unfold bind at 1.
  match goal with
  | |- context [combine_loop output_path chunk_outputs ?s2] =>
      destruct (combine_loop_returns output_path chunk_outputs s2)
        as (s' & log & -> & _ & c & Hc)
  end.
  - cbn. eexists. apply lookup_insert_eq.
  - cbn. eapply Forall_impl; [exact Ht|]. intros p [cp Hp].
    destruct (decide (output_path = p)) as [<-|Hne].
    + eexists. apply lookup_insert_eq.
    + exists cp. cbn [fs]. by rewrite lookup_insert_ne.
  - unfold close_file. rewrite Hc. do 2 eexists.
    split; [reflexivity|]. by exists c.
Qed.

Lemma finish_returns (output_path : option string)
    (chunk_outputs : list string) (failed_chunks : list Z) (s : env R) :
  (forall p, output_path = Some p -> p ∉ denied s) ->
  text_files s chunk_outputs ->
  exists r s' log,
    finish output_path chunk_outputs failed_chunks s = (Ret r, s', log) /\
    result_on_disk output_path s' r.
Proof.
  intros Hd Ht. unfold finish.
  destruct (decide (chunk_outputs = [])) as [->|Hne].
  { rewrite andb_false_r. run. by do 3 eexists. }
  rewrite (bool_decide_false _ Hne).
  destruct output_path as [p|]; cbn [falsy negb andb].
  - destruct (decide (p = "")) as [->|Hp].
    + rewrite bool_decide_true by done. cbn [negb andb].
      destruct (bool_decide (failed_chunks = [])); run; do 3 eexists;
        (split; [reflexivity|]); cbn; by rewrite bool_decide_true.
    + rewrite (bool_decide_false _ Hp). cbn [negb andb default].
      change (id p) with p.
      unfold bind at 1, print at 1, emit. unfold bind at 1.
      destruct (combine_returns p chunk_outputs s (Hd p eq_refl) Ht)
        as (s' & log & -> & c & Hc).
      destruct (bool_decide (failed_chunks = [])); run; do 3 eexists;
        (split; [reflexivity|]); cbn; (split; [done|by exists c]).
  - destruct (bool_decide (failed_chunks = [])); run; do 3 eexists;
      (split; [reflexivity|]); done.
Qed.

Lemma split_pdf_denied (pdf_path : string) (output_dir : option string)
    (num_chunks : Z) (s : env R) r s' log :
  split_pdf os pdf_path output_dir num_chunks s = (r, s', log) ->
  denied s' = denied s.
Proof.
  unfold split_pdf. cbv zeta. unfold pdf_reader, read_bytes, ceil_div. run.
  destruct (fs s !! pdf_path) as [[pages|text]|];
    [|by intros [= _ <- _]|by intros [= _ <- _]].
  destruct (bool_decide (num_chunks = 0)); [by intros [= _ <- _]|].
  destruct (bool_decide (_ = 0)); [by intros [= _ <- _]|].
  destruct (split_loop _ _ _ _ _ _ _ _ _) as [[[paths|e] s2] l2] eqn:E;
    apply split_loop_frame in E as (_ & Hd & _);
    by intros [= _ <- _].
Qed.

(** X21: when the output path, if there is one, can be opened for
    writing, [process_pdf_in_chunks] returns: the outputs of the chunks
    that the loop collected are text files when the merge reads them.  A
    merged file that is returned is the output path and is a text file on
    the disk; a list of chunk outputs that is returned is not empty and
    each of its paths is a text file on the disk. *)
Theorem pipeline_returns_when_writable (pdf_path : string)
    (output_path : option string) (num_chunks : Z) (model : string)
    (s : env R) :
  (forall p, output_path = Some p -> p ∉ denied s) ->
  exists (r : pipeline_result) (s' : env R) (log : list event),
    process_pdf_in_chunks os client pdf_path output_path num_chunks model s
      = (Ret r, s', log) /\
    result_on_disk output_path s' r.
Proof.
  intros Hd. unfold process_pdf_in_chunks, process_pdf_in_chunks_with.
  unfold bind at 1, attempt at 1.
  destruct (split_pdf os pdf_path None num_chunks s)
    as [[[chunk_paths|e] s1] l1] eqn:ES.
  2:{ run. by do 3 eexists. }
  apply split_pdf_denied in ES as Hd1.
  unfold bind at 1.
  destruct (chunk_loop_disk output_path model (length chunk_paths)
              chunk_paths 0 [] [] s1)
    as (outs & failed & s2 & l2 & -> & Hd2 & Ht); [constructor|].
  cbn [fst snd].
  destruct (finish_returns output_path outs failed s2)
    as (r & s3 & l3 & -> & Hr); [|exact Ht|].
  { intros p Hp. rewrite Hd2, Hd1. by apply Hd. }
  by do 3 eexists.
Qed.




End EndToEnd.

Lemma convert_image_success_witness :
  exists s' log,
    convert_image_to_markdown Stub.os Stub.good "a.png" None "m"
      (Stub.disk [("a.png", TextFile "png")]) = (Ret (Some "a.png.md"), s', log) /\
    fs s' !! "a.png.md" = Some (TextFile (get_combined_markdown
                                (mk_response ["p1"; "p2"] (Ret Stub.usage)))).
Proof.
  edestruct (convert_image_success Stub.os Stub.good "a.png" None "m"
               (Stub.disk [("a.png", TextFile "png")]))
    as (s' & log & Hrun & _ & Hfs & _).
  - reflexivity.
  - reflexivity.
  - apply not_elem_of_empty.
  - reflexivity.
  - exists s', log. split; [exact Hrun|]. rewrite Hfs. apply lookup_insert_eq.
Defined.

Lemma pipeline_returns_when_writable_witness :
  exists r s' log,
    process_pdf_in_chunks Stub.os Stub.good "a.pdf" (Some "out.md") 2 "m"
      Stub.five_pages = (Ret r, s', log) /\
    result_on_disk (Some "out.md") s' r.
Proof.
  apply (pipeline_returns_when_writable Stub.os Stub.good "a.pdf"
           (Some "out.md") 2 "m" Stub.five_pages).
  intros p _. apply not_elem_of_empty.
Defined.

